(** * Raven: extraction, classification and pipeline — a shallow embedding

    The development follows the Python sources

      - [services/insight_extractor.py]  (titles, local fallback insight),
      - [services/content_extractor.py]  (strategies, role cascade, banner filter),
      - [app.py]                         (link probe, per-link pipeline, worker loop).

    Text is modelled by Rocq's [string], read as ASCII: a character is a
    letter, a digit or white space exactly when Python says so for the code
    points below 128.  Exceptions are explicit ([Res]); the browser page, the
    HTTP session, the clock and the file system are passed in as values. *)

From Stdlib Require Import Ascii String List Arith Bool Lia ZArith.
From stdpp Require Import gmap strings list fin_maps.

Local Open Scope string_scope.
Local Open Scope list_scope.
Local Open Scope nat_scope.

Local Set Warnings "-register-all".
Local Set Warnings "-clear-no-such-hyp".

(** ** Python string primitives *)

Module Text.

Definition code (c : ascii) : nat := nat_of_ascii c.

Definition is_upper (c : ascii) : bool := (65 <=? code c) && (code c <=? 90).
Definition is_lower (c : ascii) : bool := (97 <=? code c) && (code c <=? 122).
Definition is_digit (c : ascii) : bool := (48 <=? code c) && (code c <=? 57).

(** [c.isalnum()] *)
Definition isalnum_char (c : ascii) : bool := is_upper c || is_lower c || is_digit c.

(** the class [\w] of [re] *)
Definition is_word_char (c : ascii) : bool := isalnum_char c || (code c =? 95).

(** [c.isspace()]: TAB, LF, VT, FF, CR, FS, GS, RS, US and the blank *)
Definition isspace_char (c : ascii) : bool :=
  ((9 <=? code c) && (code c <=? 13)) || ((28 <=? code c) && (code c <=? 32)).

Definition lower_char (c : ascii) : ascii :=
  if is_upper c then ascii_of_nat (code c + 32) else c.

(** [s.lower()] *)
Fixpoint lower (s : string) : string :=
  match s with
  | EmptyString => EmptyString
  | String c s' => String (lower_char c) (lower s')
  end.

(** [s.startswith(p)] *)
Fixpoint startswith (p s : string) : bool :=
  match p, s with
  | EmptyString, _ => true
  | String _ _, EmptyString => false
  | String a p', String b s' => Ascii.eqb a b && startswith p' s'
  end.

(** [p in s] *)
Fixpoint contains (p s : string) : bool :=
  startswith p s ||
  match s with
  | EmptyString => false
  | String _ s' => contains p s'
  end.

(** [any(p in s for p in ps)] *)
Definition any_in (ps : list string) (s : string) : bool :=
  existsb (fun p => contains p s) ps.

(** [sum(1 for p in ps if p in s)] *)
Definition score (ps : list string) (s : string) : nat :=
  list_sum (map (fun _ => 1) (List.filter (fun p => contains p s) ps)).

(** [s[:n]] and [s[n:]] *)
Fixpoint take (n : nat) (s : string) : string :=
  match n, s with
  | S k, String c s' => String c (take k s')
  | _, _ => EmptyString
  end.

Fixpoint drop (n : nat) (s : string) : string :=
  match n, s with
  | S k, String _ s' => drop k s'
  | _, _ => s
  end.

Fixpoint take_while (f : ascii -> bool) (s : string) : string :=
  match s with
  | String c s' => if f c then String c (take_while f s') else EmptyString
  | EmptyString => EmptyString
  end.

Fixpoint drop_while (f : ascii -> bool) (s : string) : string :=
  match s with
  | String c s' => if f c then drop_while f s' else s
  | EmptyString => EmptyString
  end.

(** removes a trailing run of characters satisfying [f] *)
Fixpoint drop_while_end (f : ascii -> bool) (s : string) : string :=
  match s with
  | EmptyString => EmptyString
  | String c s' =>
      match drop_while_end f s' with
      | EmptyString => if f c then EmptyString else String c EmptyString
      | r => String c r
      end
  end.

Definition lstrip (s : string) : string := drop_while isspace_char s.
Definition rstrip (s : string) : string := drop_while_end isspace_char s.

(** [s.strip()] *)
Definition strip (s : string) : string := rstrip (lstrip s).

Definition char_in (cs : string) (c : ascii) : bool :=
  existsb (Ascii.eqb c) (list_ascii_of_string cs).

(** [s.strip(cs)] *)
Definition strip_chars (cs s : string) : string :=
  drop_while_end (char_in cs) (drop_while (char_in cs) s).

Fixpoint all_chars (f : ascii -> bool) (s : string) : bool :=
  match s with
  | EmptyString => true
  | String c s' => f c && all_chars f s'
  end.

(** [s.isalnum()]: every character alphanumeric and at least one character *)
Definition isalnum (s : string) : bool :=
  match s with
  | EmptyString => false
  | _ => all_chars isalnum_char s
  end.

Fixpoint filter_chars (f : ascii -> bool) (s : string) : string :=
  match s with
  | EmptyString => EmptyString
  | String c s' => if f c then String c (filter_chars f s') else filter_chars f s'
  end.

Definition snoc (s : string) (c : ascii) : string := s ++ String c EmptyString.

(** [s.split()]: maximal runs of non-blank characters; [cur] is the run
    being read *)
Fixpoint split_ws_from (s cur : string) : list string :=
  match s with
  | EmptyString => match cur with EmptyString => [] | _ => [cur] end
  | String c s' =>
      if isspace_char c
      then match cur with
           | EmptyString => split_ws_from s' EmptyString
           | _ => cur :: split_ws_from s' EmptyString
           end
      else split_ws_from s' (snoc cur c)
  end.

Definition split_ws (s : string) : list string := split_ws_from s EmptyString.

(** [s.split(sep)] for a non-empty [sep]: left-to-right, non-overlapping.
    [skip] counts the characters of a separator still to be passed over and
    [cur] is the segment being read. *)
Fixpoint split_from (sep s : string) (skip : nat) (cur : string) : list string :=
  match s with
  | EmptyString => [cur]
  | String c s' =>
      match skip with
      | S k => split_from sep s' k cur
      | O =>
          if startswith sep s
          then cur :: split_from sep s' (String.length sep - 1) EmptyString
          else split_from sep s' 0 (snoc cur c)
      end
  end.

Definition split (sep s : string) : list string := split_from sep s 0 EmptyString.

(** [sep.join(parts)] *)
Fixpoint join (sep : string) (parts : list string) : string :=
  match parts with
  | [] => EmptyString
  | [p] => p
  | p :: rest => p ++ sep ++ join sep rest
  end.

(** [re.search(lit + r"(\w+)", s)] for a literal [lit]: group 1 of the
    leftmost match, the longest run of word characters after [lit] *)
Fixpoint search_word_after (lit s : string) : option string :=
  let here :=
    if startswith lit s
    then match take_while is_word_char (drop (String.length lit) s) with
         | EmptyString => None
         | w => Some w
         end
    else None in
  match here with
  | Some w => Some w
  | None =>
      match s with
      | EmptyString => None
      | String _ s' => search_word_after lit s'
      end
  end.

Definition is_empty (s : string) : bool :=
  match s with EmptyString => true | _ => false end.

(** [len(s)], as a binary number where it is compared with large bounds *)
Definition len (s : string) : N := N.of_nat (String.length s).

End Text.

(** ** Exceptions *)

Inductive Exn := TimeoutError | ClientError | OtherError.

Inductive Res (A : Type) : Type :=
  | Ok (a : A)
  | Raise (e : Exn).
Arguments Ok {A} a.
Arguments Raise {A} e.

Definition bind {A B : Type} (r : Res A) (k : A -> Res B) : Res B :=
  match r with
  | Ok a => k a
  | Raise e => Raise e
  end.

Notation "x <- r ;; k" := (bind r (fun x => k))
  (at level 20, r at level 99, k at level 200, only parsing).

(** ** Messages *)

Inductive Role := user | assistant | unknown.

Definition Role_eqb (a b : Role) : bool :=
  match a, b with
  | user, user | assistant, assistant | unknown, unknown => true
  | _, _ => false
  end.

Record Message := mkMessage {
  role : Role;
  content : string;
  extraction_method : string
}.

(** ** services/insight_extractor.py *)

Module InsightExtractor.

(** the literal parts of [name_patterns]; each is followed by [(\w+)] *)
Definition name_patterns : list string :=
  ["my name is "; "i'm "; "i am "; "call me "].

(** the loop [for pattern in name_patterns: ... break] *)
Fixpoint first_name_match (patterns : list string) (s : string) : option string :=
  match patterns with
  | [] => None
  | p :: rest =>
      match Text.search_word_after p s with
      | Some w => Some w
      | None => first_name_match rest s
      end
  end.

(** the loop that finds the first message with role ['user'] *)
Fixpoint first_user_msg (conversation_data : list Message) : option string :=
  match conversation_data with
  | [] => None
  | msg :: rest =>
      if Role_eqb (role msg) user then Some (content msg) else first_user_msg rest
  end.

(** [f"conversation_{datetime.now().strftime('%Y%m%d_%H%M%S')}"]; [now] is
    the formatted clock reading *)
Definition placeholder_title (now : string) : string := "conversation_" ++ now.

Definition summary_of (first : string) : string :=
  let words := firstn 5 (Text.split_ws first) in
  Text.join "_"
    (map (fun word => Text.strip_chars ".,!?" (Text.lower word))
         (List.filter Text.isalnum words)).

Definition clean_title (title : string) : string :=
  Text.take 50
    (Text.filter_chars
       (fun c => Text.is_word_char c || (Text.code c =? 45)) title).

Definition generate_title (now : string) (conversation_data : list Message) : string :=
  match first_user_msg conversation_data with
  | None => placeholder_title now
  | Some first =>
      if Text.is_empty first then placeholder_title now
      else
        let user_name :=
          match first_name_match name_patterns (Text.lower first) with
          | Some w => w
          | None => "user"
          end in
        let summary := summary_of first in
        let title := clean_title (user_name ++ "_" ++ summary) in
        if Text.is_empty title then placeholder_title now else title
  end.

(** *** The local fallback insight *)

Record Insight := mkInsight {
  user_name : option string;
  user_background : string;
  main_topic : string;
  problem_described : string;
  solution_provided : string;
  tags : list string;
  sentiment : string;
  created_at : string
}.

Definition contents_with_role (r : Role) (conversation_data : list Message) : list string :=
  map content (List.filter (fun msg => Role_eqb (role msg) r) conversation_data).

Definition positive_words : list string :=
  ["good"; "great"; "excellent"; "thank"; "helpful"; "amazing"].
Definition negative_words : list string :=
  ["bad"; "terrible"; "awful"; "problem"; "issue"; "error"].

(** [" ".join(user_messages + assistant_messages).lower()] *)
Definition all_text (conversation_data : list Message) : string :=
  Text.lower
    (Text.join " " (contents_with_role user conversation_data ++
                    contents_with_role assistant conversation_data)).

Definition sentiment_of (text : string) : string :=
  let pos_count := Text.score positive_words text in
  let neg_count := Text.score negative_words text in
  if neg_count <? pos_count then "positive"
  else if pos_count <? neg_count then "negative"
  else "neutral".

(** [now] is [datetime.now().isoformat()] *)
Definition _generate_fallback_insights (now : string) (conversation_data : list Message)
  : Insight :=
  let user_messages := contents_with_role user conversation_data in
  let assistant_messages := contents_with_role assistant conversation_data in
  let user_name :=
    match user_messages with
    | first :: _ => first_name_match name_patterns (Text.lower first)
    | [] => None
    end in
  let main_topic :=
    match user_messages with
    | first :: _ => Text.join " " (firstn 5 (Text.split_ws first))
    | [] => "General conversation"
    end in
  {| user_name := user_name;
     user_background := "Not specified";
     main_topic := main_topic;
     problem_described :=
       match user_messages with first :: _ => first | [] => "No problem specified" end;
     solution_provided :=
       match assistant_messages with first :: _ => first | [] => "No solution provided" end;
     tags := ["conversation"; "chat"];
     sentiment := sentiment_of (all_text conversation_data);
     created_at := now |}.

(** The reading of the sentiment rule that counts every occurrence of a
    word: [text.count(w)] summed over the word list. *)
Fixpoint count_from (w s : string) (skip : nat) : nat :=
  match s with
  | EmptyString => 0
  | String _ s' =>
      match skip with
      | S k => count_from w s' k
      | O => if Text.startswith w s
             then S (count_from w s' (String.length w - 1))
             else count_from w s' 0
      end
  end.

Definition occurrences (ws : list string) (text : string) : nat :=
  list_sum (map (fun w => count_from w text 0) ws).

Definition sentiment_by_occurrences (text : string) : string :=
  let pos_count := occurrences positive_words text in
  let neg_count := occurrences negative_words text in
  if neg_count <? pos_count then "positive"
  else if pos_count <? neg_count then "negative"
  else "neutral".

End InsightExtractor.

(** ** The browser page, as far as the extractor queries it *)

Inductive Element : Type := mkElement {
  query_selector_all : string -> Res (list Element);
  get_attribute : string -> Res (option string);
  inner_text : Res string
}.

Record Page := mkPage {
  page_query_selector_all : string -> Res (list Element);
  page_inner_text : string -> Res string
}.

(** ** services/content_extractor.py *)

Module ContentExtractor.

Definition LF : string := String "010"%char EmptyString.
Definition DQ : string := String "034"%char EmptyString.

(** the CSS selector [tag[name*="value"]] *)
Definition attr_has (tag name value : string) : string :=
  tag ++ "[" ++ name ++ "*=" ++ DQ ++ value ++ DQ ++ "]".

Definition nonempty {A} (l : list A) : bool :=
  match l with [] => false | _ => true end.

(** *** Role detection *)

Definition user_patterns : list string :=
  ["please"; "can you"; "how do i"; "what is"; "help me";
   "i want"; "i need"; "could you"; "would you"].

Definition assistant_patterns : list string :=
  ["i can help"; "here is"; "here are"; "to answer";
   "certainly"; "of course"; "i understand"; "let me"].

Definition _guess_role_from_content (content : string) (position : nat) : Role :=
  let content_lower := Text.lower content in
  let user_score := Text.score user_patterns content_lower in
  let assistant_score := Text.score assistant_patterns content_lower in
  if assistant_score <? user_score then user
  else if user_score <? assistant_score then assistant
  else if position mod 2 =? 0 then user else assistant.

Definition user_avatar_selectors : list string :=
  [attr_has "img" "alt" "User"; attr_has "img" "alt" "user";
   attr_has "img" "src" "user";
   attr_has EmptyString "aria-label" "User"; attr_has EmptyString "aria-label" "user";
   attr_has EmptyString "data-testid" "user"; ".user-avatar"].

Definition assistant_avatar_selectors : list string :=
  [attr_has "img" "alt" "ChatGPT"; attr_has "img" "alt" "Assistant";
   attr_has "img" "alt" "assistant";
   attr_has "img" "src" "chatgpt"; attr_has "img" "src" "openai";
   attr_has EmptyString "aria-label" "ChatGPT";
   attr_has EmptyString "aria-label" "Assistant";
   attr_has EmptyString "data-testid" "assistant"; ".assistant-avatar"].

(** [for selector in selectors: if await container.query_selector_all(selector): ...] *)
Fixpoint any_selector_found (container : Element) (selectors : list string) : Res bool :=
  match selectors with
  | [] => Ok false
  | selector :: rest =>
      elements <- query_selector_all container selector ;;
      if nonempty elements then Ok true else any_selector_found container rest
  end.

Definition user_indicators : list string := ["user"; "human"].
Definition assistant_indicators : list string := ["assistant"; "ai"; "chatgpt"; "bot"].

(** The body of the [try] block of [_determine_role_improved]; [Ok None]
    is falling out of it without a [return]. *)
Definition role_cascade (container : Element) : Res (option Role) :=
  is_user <- any_selector_found container user_avatar_selectors ;;
  if is_user then Ok (Some user) else
  is_assistant <- any_selector_found container assistant_avatar_selectors ;;
  if is_assistant then Ok (Some assistant) else
  class_attr <- get_attribute container "class" ;;
  testid_attr <- get_attribute container "data-testid" ;;
  let container_html :=
    (default EmptyString class_attr ++ default EmptyString testid_attr)%string in
  if Text.any_in user_indicators (Text.lower container_html) then Ok (Some user)
  else if Text.any_in assistant_indicators (Text.lower container_html)
  then Ok (Some assistant)
  else
    content <- inner_text container ;;
    if Text.is_empty content then Ok None
    else Ok (Some (_guess_role_from_content content 0)).

Definition _determine_role_improved (container : Element) : Role :=
  match role_cascade container with
  | Ok (Some r) => r
  | Ok None | Raise _ => unknown
  end.

(** *** Content of a container *)

Fixpoint stripped_texts (elements : list Element) : Res (list string) :=
  match elements with
  | [] => Ok []
  | elem :: rest =>
      text <- inner_text elem ;;
      texts <- stripped_texts rest ;;
      Ok (if Text.is_empty (Text.strip text) then texts else Text.strip text :: texts)
  end.

Definition content_by_selector (container : Element) (selector : string)
  : Res (option string) :=
  elements <- query_selector_all container selector ;;
  if nonempty elements then
    texts <- stripped_texts elements ;;
    if nonempty texts then Ok (Some (Text.join LF texts)) else Ok None
  else Ok None.

Fixpoint _extract_content (container : Element) (selectors : list string) : string :=
  match selectors with
  | selector :: rest =>
      match content_by_selector container selector with
      | Ok (Some text) => text
      | Ok None | Raise _ => _extract_content container rest
      end
  | [] =>
      match inner_text container with
      | Ok full_text => Text.strip full_text
      | Raise _ => EmptyString
      end
  end.

(** *** The five strategies *)

(** the loop shared by the three selector strategies *)
Fixpoint turns_of (method : string) (content_selectors : list string)
    (containers : list Element) : list Message :=
  match containers with
  | [] => []
  | container :: rest =>
      let role := _determine_role_improved container in
      let content := _extract_content container content_selectors in
      if negb (Text.is_empty content) && (10 <? Text.len (Text.strip content))%N
      then mkMessage role (Text.strip content) method
             :: turns_of method content_selectors rest
      else turns_of method content_selectors rest
  end.

Definition container_selectors : list string :=
  [attr_has EmptyString "data-testid" "conversation-turn";
   attr_has EmptyString "data-testid" "message";
   attr_has "div" "class" "ConversationItem"].

Fixpoint first_found (page : Page) (selectors : list string) : Res (list Element) :=
  match selectors with
  | [] => Ok []
  | selector :: rest =>
      found <- page_query_selector_all page selector ;;
      if nonempty found then Ok found else first_found page rest
  end.

Definition _strategy_modern_selectors (page : Page) : Res (list Message) :=
  containers <- first_found page container_selectors ;;
  Ok (turns_of "modern_selectors"
        [".prose"; ".markdown"; attr_has EmptyString "class" "markdown";
         attr_has EmptyString "class" "prose"]
        containers).

Definition _strategy_alternative_selectors (page : Page) : Res (list Message) :=
  containers <- page_query_selector_all page
                 (attr_has "div" "class" "group" ++ attr_has EmptyString "class" "w-full") ;;
  Ok (turns_of "alternative_selectors"
        [attr_has "div" "class" "markdown"; ".prose"; attr_has "div" "class" "prose";
         ".message-content"]
        containers).

Definition _strategy_generic_selectors (page : Page) : Res (list Message) :=
  containers <- page_query_selector_all page
                 ("div.group, " ++ attr_has "div" "class" "message") ;;
  Ok (turns_of "generic_selectors"
        [attr_has "div" "class" "markdown"; attr_has "div" "class" "prose";
         ".message-content"; "p"]
        containers).

Definition ui_patterns : list string :=
  ["sign up"; "log in"; "menu"; "navigation"; "footer";
   "cookie"; "privacy"; "terms"; "subscribe"].

Definition _looks_like_message (text : string) : bool :=
  if (Text.len text <? 20)%N || (10000 <? Text.len text)%N then false
  else negb (Text.any_in ui_patterns (Text.lower text)).

(** one round of the loop over [all_elements], with its [try ... except: continue] *)
Definition potential_message (elem : Element) : option Message :=
  match inner_text elem with
  | Raise _ => None
  | Ok text =>
      let stripped := Text.strip text in
      if negb (Text.is_empty text)
         && (20 <? Text.len stripped)%N && (Text.len stripped <? 10000)%N
         && _looks_like_message stripped
      then Some (mkMessage (_determine_role_improved elem) stripped
                   "structured_extraction")
      else None
  end.

Section Hashed.

(** Python's [hash] on strings *)
Variable hash : string -> Z.

Fixpoint dedupe (seen_content : gset Z) (msgs : list Message) : list Message :=
  match msgs with
  | [] => []
  | msg :: rest =>
      let content_hash := hash (Text.take 100 (content msg)) in
      if decide (content_hash ∈ seen_content)
      then dedupe seen_content rest
      else msg :: dedupe ({[content_hash]} ∪ seen_content) rest
  end.

Definition _strategy_structured_extraction (page : Page) : Res (list Message) :=
  all_elements <- page_query_selector_all page "div, article, section" ;;
  let potential_messages := omap potential_message all_elements in
  Ok (firstn 50 (dedupe ∅ potential_messages)).

Definition potential_splits : list string :=
  [(LF ++ LF ++ LF)%string;
   (LF ++ LF ++ "User" ++ LF)%string;
   (LF ++ LF ++ "Assistant" ++ LF)%string;
   (LF ++ LF ++ "ChatGPT" ++ LF)%string].

Definition resplit (segments : list string) (split_pattern : string) : list string :=
  flat_map (Text.split split_pattern) segments.

(** [for i, segment in enumerate(segments)], from index [i] on *)
Fixpoint classify_segments (i : nat) (segments : list string) : list Message :=
  match segments with
  | [] => []
  | segment :: rest =>
      let cleaned := Text.strip segment in
      if (50 <? Text.len cleaned)%N && (Text.len cleaned <? 5000)%N
      then mkMessage (_guess_role_from_content cleaned i) cleaned "fallback_pattern"
             :: classify_segments (S i) rest
      else classify_segments (S i) rest
  end.

Definition _strategy_fallback (page : Page) : Res (list Message) :=
  page_text <- page_inner_text page "body" ;;
  let segments := fold_left resplit potential_splits [page_text] in
  Ok (firstn 20 (classify_segments 0 segments)).

(** *** Choosing a strategy *)

Definition has_role (r : Role) (messages : list Message) : bool :=
  existsb (fun msg => Role_eqb (role msg) r) messages.

Definition _validate_conversation_structure (messages : list Message) : bool :=
  if nonempty messages
  then has_role user messages && has_role assistant messages
  else false.

Definition strategies : list (Page -> Res (list Message)) :=
  [_strategy_modern_selectors;
   _strategy_alternative_selectors;
   _strategy_generic_selectors;
   _strategy_structured_extraction;
   _strategy_fallback].

(** the loop [for i, strategy in enumerate(strategies)] with its
    [try ... except: continue] *)
Fixpoint first_valid (page : Page) (todo : list (Page -> Res (list Message)))
  : list Message :=
  match todo with
  | [] => []
  | strategy :: rest =>
      match strategy page with
      | Ok conversation =>
          if nonempty conversation && _validate_conversation_structure conversation
          then conversation
          else first_valid page rest
      | Raise _ => first_valid page rest
      end
  end.

Definition _extract_with_multiple_strategies (page : Page) : list Message :=
  first_valid page strategies.

(** *** extract_conversation *)

Definition error_patterns : list string :=
  ["can't load shared conversation"; "return to chatgpt"; "unable to load";
   "not found"; "something went wrong"].

Definition is_error_message (msg : Message) : bool :=
  Text.any_in error_patterns (Text.lower (content msg)).

Record Metadata := mkMetadata {
  total_messages : nat;
  user_messages : nat;
  assistant_messages : nat;
  meta_extraction_method : string
}.

Record Transcript := mkTranscript {
  url : string;
  messages : list Message;
  metadata : Metadata
}.

(** the warnings the extraction writes to the log *)
Inductive Warning :=
  | AllErrorBanners
  | NoUserMessages
  | NoAssistantMessages.

(** [sum(1 for msg in msgs if msg.get("role") == r)] *)
Definition count_role (r : Role) (msgs : list Message) : nat :=
  list_sum (map (fun _ => 1) (List.filter (fun msg => Role_eqb (role msg) r) msgs)).

(** [render] stands for launching the browser, opening the page and waiting
    for it to settle; it raises when any of these does. *)
Definition extract_conversation (render : string -> Res Page) (url : string)
  : option Transcript * list Warning :=
  match render url with
  | Raise _ => (None, [])
  | Ok page =>
      let messages := _extract_with_multiple_strategies page in
      let filtered_messages :=
        List.filter (fun msg => negb (is_error_message msg)) messages in
      if negb (nonempty filtered_messages) then (None, [AllErrorBanners])
      else
        let user_count := count_role user filtered_messages in
        let assistant_count := count_role assistant filtered_messages in
        let warnings :=
          if user_count =? 0 then [NoUserMessages]
          else if assistant_count =? 0 then [NoAssistantMessages]
          else [] in
        (Some {| url := url;
                 messages := filtered_messages;
                 metadata := {| total_messages := length filtered_messages;
                                user_messages := user_count;
                                assistant_messages := assistant_count;
                                meta_extraction_method := "playwright_multi_strategy" |} |},
         warnings)
  end.

End Hashed.

End ContentExtractor.

(** ** app.py *)

Module App.

Import ContentExtractor InsightExtractor.

(** *** The link probe *)

Record Response := mkResponse {
  final_url : string;           (* [str(response.url)], after redirects *)
  status : nat;
  text : Res string             (* [await response.text()] *)
}.

(** [session.get(url, ...)] *)
Definition Session := string -> Res Response.

Definition share_prefix : string := "https://chatgpt.com/share/".

Definition error_indicators : list string :=
  ["conversation not found"; "this conversation is private"; "unable to load";
   "something went wrong"; "conversation has been deleted"].

Definition positive_indicators : list string :=
  ["chatgpt"; "conversation"; "message"; "user:"; "assistant:"].

(** [url.split('/')[-1]] *)
Definition uuid_part (url : string) : string :=
  List.last (Text.split "/" url) EmptyString.

(** what the probe concludes from an answer of the transport *)
Definition judge_response (response : Response) : bool :=
  if Text.contains "auth.openai.com" (final_url response)
     || Text.contains "login" (Text.lower (final_url response))
  then false
  else if status response =? 404 then false
  else if status response =? 403 then false
  else if 400 <=? status response then false
  else
    match text response with
    | Raise _ => false
    | Ok content =>
        let content_lower := Text.lower content in
        if Text.any_in error_indicators content_lower then false
        else if Text.score positive_indicators content_lower <? 2 then false
        else true
    end.

(** The verdict, and the URLs requested through [session], in order. *)
Definition improved_validate_link (session : Session) (url : string)
  : bool * list string :=
  if negb (Text.startswith share_prefix url) then (false, [])
  else if String.length (uuid_part url) <? 20 then (false, [])
  else
    (match session url with
     | Raise _ => false
     | Ok response => judge_response response
     end, [url]).

(** *** State shared by the runs *)

Record AppState := mkAppState {
  is_running : bool;
  links_generated : nat;
  valid_links : nat;
  insights_extracted : nat;
  failed_validations : nat
}.

(** What [open(path, 'w')] followed by [json.dump] comes to: the whole
    dump is written; or [open] raises and the file system is untouched; or
    [open] has created (or emptied) the file and the dump raises, which
    leaves a file with only a beginning of the dump. *)
Inductive WriteOutcome :=
  | Written
  | OpenFailed
  | DumpFailed.

(** the content of a file: the whole dump of a value, or a beginning of it *)
Inductive Stored (A : Type) : Type :=
  | Whole (a : A)
  | Partial (a : A).
Arguments Whole {A} a.
Arguments Partial {A} a.

(** the two directories, each a map from file name to the content of the
    file *)
Record Files := mkFiles {
  valid_jsons : gmap string (Stored Transcript);
  insights_json : gmap string (Stored Insight)
}.

(** calls made to the collaborators, latest last *)
Inductive Call :=
  | SessionGet (url : string)
  | ExtractConversation (url : string)
  | GenerateTitle (msgs : list Message)
  | ExtractInsights (msgs : list Message)
  | SaveConversation (filename : string)
  | SaveInsights (filename : string).

Record State := mkState {
  app_state : AppState;
  files : Files;
  calls : list Call
}.

(** The collaborators of one run: the module-level service objects and the
    file system. *)
Record World := mkWorld {
  session : Session;
  extract_conversation_of : string -> option Transcript;
  generate_title_of : list Message -> Res string;
  extract_insights_of : list Message -> Res (option Insight);
  mkdir_ok : bool;                       (* [ensure_directories] does not raise *)
  write_outcome : string -> WriteOutcome (* of [open(path, 'w')] and the dump *)
}.

Record PipelineResult := mkPipelineResult {
  res_url : string;
  conversation_file : string;
  insights_file : option string;
  message_count : nat;
  message_types : list Role;
  title : string
}.

#[global] Instance Role_eq_dec : EqDecision Role.
Proof. solve_decision. Defined.

Definition bump_failed (a : AppState) : AppState :=
  mkAppState (is_running a) (links_generated a) (valid_links a)
             (insights_extracted a) (S (failed_validations a)).
Definition bump_valid (a : AppState) : AppState :=
  mkAppState (is_running a) (links_generated a) (S (valid_links a))
             (insights_extracted a) (failed_validations a).
Definition bump_insights (a : AppState) : AppState :=
  mkAppState (is_running a) (links_generated a) (valid_links a)
             (S (insights_extracted a)) (failed_validations a).

Definition called (cs : list Call) (st : State) : State :=
  mkState (app_state st) (files st) (calls st ++ cs).
Definition counted (f : AppState -> AppState) (st : State) : State :=
  mkState (f (app_state st)) (files st) (calls st).
Definition save_conversation (name : string) (t : Stored Transcript) (st : State)
  : State :=
  mkState (app_state st)
          (mkFiles (<[name := t]> (valid_jsons (files st))) (insights_json (files st)))
          (calls st).
Definition save_insights (name : string) (i : Stored Insight) (st : State) : State :=
  mkState (app_state st)
          (mkFiles (valid_jsons (files st)) (<[name := i]> (insights_json (files st))))
          (calls st).

(** [c.isalnum() or c in (' ', '-', '_')] *)
Definition filename_char (c : ascii) : bool :=
  Text.isalnum_char c || Text.char_in " -_" c.

Definition filename_of (title url : string) : string :=
  let sanitized_title := Text.rstrip (Text.filter_chars filename_char title) in
  let sanitized_title :=
    if Text.is_empty sanitized_title then "Conversation"
    else Text.take 50 sanitized_title in
  sanitized_title ++ "_" ++ uuid_part url ++ ".json".

(** [try: title = await insight_extractor.generate_title(messages)] with
    its handler *)
Definition title_for (w : World) (messages : list Message) : string :=
  match generate_title_of w messages with
  | Ok t => t
  | Raise _ => "Untitled_Conversation"
  end.

(** Steps 3 to 5, once a transcript with at least one message is at hand *)
Definition store_and_summarize (w : World) (url : string)
    (conversation_data : Transcript) (st : State) : option PipelineResult * State :=
  let messages := ContentExtractor.messages conversation_data in
  let types := remove_dups (map role messages) in
  let st := called [GenerateTitle messages] st in
  let title := title_for w messages in
  let filename := filename_of title url in
  if negb (mkdir_ok w) then (None, st)
  else
    let filepath := ("valid_jsons/" ++ filename)%string in
    let st := called [SaveConversation filename] st in
    match write_outcome w filepath with
    | OpenFailed => (None, st)
    | DumpFailed => (None, save_conversation filename (Partial conversation_data) st)
    | Written =>
        let st := save_conversation filename (Whole conversation_data) st in
        let transcript_only :=
          mkPipelineResult url filepath None (length messages) types title in
        if 2 <=? length messages then
          let st := called [ExtractInsights messages] st in
          match extract_insights_of w messages with
          | Ok (Some insights) =>
              let insights_filepath := ("insights_json/" ++ filename)%string in
              let st := called [SaveInsights filename] st in
              match write_outcome w insights_filepath with
              | Written =>
                  (Some (mkPipelineResult url filepath (Some insights_filepath)
                           (length messages) types title),
                   counted bump_insights (save_insights filename (Whole insights) st))
              | OpenFailed => (Some transcript_only, st)
              | DumpFailed =>
                  (Some transcript_only, save_insights filename (Partial insights) st)
              end
          | Ok None | Raise _ => (Some transcript_only, st)
          end
        else (Some transcript_only, st)
    end.

(** The extractor hands back a dictionary with a ['messages'] list or
    [None], so the branches that re-wrap other shapes are not taken. *)
Definition process_single_link (w : World) (url : string) (st : State)
  : option PipelineResult * State :=
  let (is_valid, requested) := improved_validate_link (session w) url in
  let st := called (map SessionGet requested) st in
  if negb is_valid then (None, counted bump_failed st)
  else
    let st := counted bump_valid st in
    let st := called [ExtractConversation url] st in
    match extract_conversation_of w url with
    | None => (None, st)
    | Some conversation_data =>
        if length (ContentExtractor.messages conversation_data) <? 1 then (None, st)
        else store_and_summarize w url conversation_data st
    end.

(** *** The worker loop *)

(** What one round of [while app_state.is_running] meets: the results
    gathered for the links of the batch (one per link, [None] for a
    discarded link), or an exception reaching the handler of the round. *)
Inductive Batch :=
  | Gathered (results : list (option PipelineResult))
  | RoundRaised.

Record Worker := mkWorker {
  consecutive_failures : nat;
  generated : nat;                 (* [app_state.links_generated] *)
  sleeps : list nat                (* seconds slept, latest last *)
}.

(** [sum(1 for result in results if result and not isinstance(result, Exception))] *)
Definition successful (results : list (option PipelineResult)) : nat :=
  list_sum (map (fun _ => 1) (List.filter (fun r => bool_decide (is_Some r)) results)).

Definition worker_round (wk : Worker) (b : Batch) : Worker :=
  match b with
  | Gathered results =>
      if nonempty results then
        let generated := generated wk + length results in
        if successful results =? 0 then
          let consecutive_failures := S (consecutive_failures wk) in
          if 3 <=? consecutive_failures
          then mkWorker consecutive_failures generated (sleeps wk ++ [30; 15])
          else mkWorker consecutive_failures generated (sleeps wk ++ [15])
        else mkWorker 0 generated (sleeps wk ++ [15])
      else mkWorker (consecutive_failures wk) (generated wk) (sleeps wk ++ [15])
  | RoundRaised =>
      mkWorker (S (consecutive_failures wk)) (generated wk) (sleeps wk ++ [10])
  end.

(** the rounds of one run of [background_worker], which starts with the
    counter at zero *)
Definition worker_rounds (wk : Worker) (bs : list Batch) : Worker :=
  fold_left worker_round bs wk.

Definition worker_start (a : AppState) : Worker :=
  mkWorker 0 (links_generated a) [].

Definition background_worker (a : AppState) (bs : list Batch) : Worker :=
  worker_rounds (worker_start a) bs.

(** the extended waits of a run *)
Definition cooldowns (wk : Worker) : nat := count_occ Nat.eq_dec (sleeps wk) 30.

End App.

(** * Sample inputs and the notions used to state the properties *)

Section Samples.

Import ContentExtractor InsightExtractor App.

(** the transcript of scenario A *)
Definition scenario_A : list Message :=
  [ mkMessage user "my name is Sam, how do I reset a password" "modern_selectors";
    mkMessage assistant "Here is how: ..." "modern_selectors" ].

(** The summary with the punctuation stripped before the alphanumeric
    test: what the [strip('.,!?')] of the source would give if it were
    applied before the filter instead of after it. *)
Definition summary_strip_first (first : string) : string :=
  Text.join "_"
    (List.filter Text.isalnum
       (map (fun word => Text.strip_chars ".,!?" (Text.lower word))
            (firstn 5 (Text.split_ws first)))).

(** a word character or a hyphen *)
Definition title_char (c : ascii) : bool :=
  Text.is_word_char c || (Text.code c =? 45).

(** one positive word three times, two negative words once each *)
Definition three_good_two_bad : list Message :=
  [ mkMessage user "good good good" "modern_selectors";
    mkMessage assistant "bad and awful" "modern_selectors" ].

(** the number of words of [ws] that occur in [text] at least once *)
Definition words_present (ws : list string) (text : string) : nat :=
  length (List.filter (fun w => Text.contains w text) ws).

(** a container without descendants matching any selector and without
    attributes *)
Definition plain_element (text : string) : Element :=
  mkElement (fun _ => Ok []) (fun _ => Ok None) (Ok text).

(** a container in which exactly [selector] matches something *)
Definition marked_element (selector text : string) : Element :=
  mkElement
    (fun s => if String.eqb s selector then Ok [plain_element EmptyString] else Ok [])
    (fun _ => Ok None) (Ok text).

(** none of the avatar selectors matches inside the container *)
Definition no_avatar_marker (container : Element) : Prop :=
  forall selector,
    In selector (user_avatar_selectors ++ assistant_avatar_selectors) ->
    query_selector_all container selector = Ok [].

(** the class and test-id attributes name no role *)
Definition no_role_attribute (container : Element) : Prop :=
  exists class_attr testid_attr,
    get_attribute container "class" = Ok class_attr
    /\ get_attribute container "data-testid" = Ok testid_attr
    /\ Text.any_in (user_indicators ++ assistant_indicators)
         (Text.lower (default EmptyString class_attr ++ default EmptyString testid_attr))
       = false.

(** the text holds no requester phrase and no responder phrase *)
Definition no_role_phrase (content : string) : Prop :=
  Text.any_in (user_patterns ++ assistant_patterns) (Text.lower content) = false.

(** a page on which exactly [selector] matches, giving [containers] *)
Definition page_with (selector : string) (containers : list Element) : Page :=
  mkPage (fun s => if String.eqb s selector then Ok containers else Ok [])
         (fun _ => Ok EmptyString).

Definition user_marker : string := attr_has EmptyString "data-testid" "user".
Definition assistant_marker : string := attr_has EmptyString "data-testid" "assistant".

Definition turn_selector : string :=
  attr_has EmptyString "data-testid" "conversation-turn".
Definition alternative_selector : string :=
  (attr_has "div" "class" "group" ++ attr_has EmptyString "class" "w-full")%string.

(** a stand-in for Python's [hash] *)
Definition length_hash (s : string) : Z := Z.of_nat (String.length s).

(** a page of the alternate layout with one question and one answer *)
Definition alternate_page : Page :=
  page_with alternative_selector
    [marked_element user_marker "please tell me about proof assistants";
     marked_element assistant_marker "Certainly, here is an overview"].

(** a page whose question quotes an error banner *)
Definition banner_in_question : Page :=
  page_with turn_selector
    [marked_element user_marker "my page says not found, what now";
     marked_element assistant_marker "Here is what you can try next"].

(** a page whose answer quotes an error banner *)
Definition banner_in_answer : Page :=
  page_with turn_selector
    [marked_element user_marker "what does this message mean";
     marked_element assistant_marker "It means that something went wrong"].


Definition share_url : string :=
  "https://chatgpt.com/share/0f8fad5b-d9cb-469f-a165-70867728950e".

(** non-empty, with a user message and an assistant message *)
Definition structurally_valid (conversation : list Message) : Prop :=
  conversation <> []
  /\ (exists msg, In msg conversation /\ role msg = user)
  /\ (exists msg, In msg conversation /\ role msg = assistant).

(** the messages kept by the banner filter *)
Definition without_banners (msgs : list Message) : list Message :=
  List.filter (fun msg => negb (is_error_message msg)) msgs.

(** a transport that answers every request with a page that looks like a
    shared conversation *)
Definition open_session : Session :=
  fun u => Ok (mkResponse u 200 (Ok "<title>ChatGPT</title> a shared conversation")).

(** the services as the program wires them, over a given renderer and a
    given outcome of the summarization *)
Definition world_of (render : string -> Res Page)
    (insights : list Message -> Res (option Insight)) : World :=
  mkWorld open_session
          (fun u => fst (extract_conversation length_hash render u))
          (fun msgs => Ok (generate_title "20240101_120000" msgs))
          insights true (fun _ => Written).

(** the summarization when the model cannot be reached: the local fallback *)
Definition local_insights (msgs : list Message) : Res (option Insight) :=
  Ok (Some (_generate_fallback_insights "2024-01-01T12:00:00" msgs)).

Definition fresh_state : State :=
  mkState (mkAppState true 0 0 0 0) (mkFiles ∅ ∅) [].

(** a page with a single turn *)
Definition single_turn_page : Page :=
  page_with turn_selector
    [marked_element user_marker "how do I reset my password";
     marked_element assistant_marker "Something went wrong, try later"].

Definition conversation_path (w : World) (url : string) (t : Transcript) : string :=
  ("valid_jsons/" ++ filename_of (title_for w (messages t)) url)%string.

Definition insights_path (w : World) (url : string) (t : Transcript) : string :=
  ("insights_json/" ++ filename_of (title_for w (messages t)) url)%string.

(** the summarization raised or returned nothing, or the file for its
    result could not be opened *)
Definition insights_failed (w : World) (url : string) (t : Transcript) : Prop :=
  extract_insights_of w (messages t) = Ok None
  \/ (exists e, extract_insights_of w (messages t) = Raise e)
  \/ write_outcome w (insights_path w url t) = OpenFailed.

Definition answer_only : list Message :=
  [mkMessage assistant "Here is what you can try next" "modern_selectors"].

Definition question_only : list Message :=
  [mkMessage user "what does this message mean" "modern_selectors"].

(** the outcome of a batch of [k] links, none of them processed with success *)
Definition all_failed (k : nat) : Batch := Gathered (repeat None k).

Definition idle_state : AppState := mkAppState true 0 0 0 0.

(** the rounds at which the counter passes from below 3 to 3 or more *)
Fixpoint threshold_crossings (wk : Worker) (bs : list Batch) : nat :=
  match bs with
  | [] => 0
  | b :: rest =>
      let wk' := worker_round wk b in
      (if (consecutive_failures wk <? 3) && (3 <=? consecutive_failures wk')
       then 1 else 0)
      + threshold_crossings wk' rest
  end.

End Samples.

(** * Further parts of the program *)

(** ** services/insight_extractor.py: the call to the language model *)

Module Summarizer.

Import ContentExtractor InsightExtractor.

Definition upper_char (c : ascii) : ascii :=
  if Text.is_lower c then ascii_of_nat (Text.code c - 32) else c.

(** [s.upper()] *)
Fixpoint upper (s : string) : string :=
  match s with
  | EmptyString => EmptyString
  | String c s' => String (upper_char c) (upper s')
  end.

(** the strings that stand for the roles in a message dictionary *)
Definition role_name (r : Role) : string :=
  match r with
  | user => "user"
  | assistant => "assistant"
  | unknown => "unknown"
  end.

Definition format_turn (msg : Message) : string :=
  upper (role_name (role msg)) ++ ": " ++ content msg.

Definition _format_conversation_for_analysis (conversation_data : list Message)
  : string :=
  Text.join (LF ++ LF) (map format_turn conversation_data).

Definition indent (n : nat) (line : string) : string :=
  string_of_list_ascii (repeat " "%char n) ++ line.

(** a line ["key": "value",] of the JSON template in the prompt *)
Definition template_line (key value : string) (last : bool) : string :=
  indent 16 (DQ ++ key ++ DQ ++ ": " ++ DQ ++ value ++ DQ ++ (if last then EmptyString else ",")).

(** the f-string [prompt]; [now] is [datetime.now().isoformat()] *)
Definition prompt_of (conversation_text now : string) : string :=
  Text.join LF
    [ EmptyString;
      indent 12 "Analyze the following conversation and extract structured insights in JSON format.";
      indent 12 EmptyString;
      indent 12 "Conversation:";
      indent 12 conversation_text;
      indent 12 EmptyString;
      indent 12 "Extract the following information and return as valid JSON:";
      indent 12 "{";
      template_line "user_name" "extracted name or null" false;
      template_line "user_background" "brief description of user background/context" false;
      template_line "main_topic" "primary topic discussed" false;
      template_line "problem_described" "main problem or question raised" false;
      template_line "solution_provided" "key solution or advice given" false;
      indent 16 (DQ ++ "tags" ++ DQ ++ ": [" ++ DQ ++ "tag1" ++ DQ ++ ", " ++ DQ ++ "tag2"
                 ++ DQ ++ ", " ++ DQ ++ "tag3" ++ DQ ++ "],");
      template_line "sentiment" "positive/neutral/negative" false;
      template_line "created_at" now true;
      indent 12 "}";
      indent 12 EmptyString;
      indent 12 "Return ONLY valid JSON, no other text.";
      indent 12 EmptyString ].

(** the request posted to the model: the target and the [payload] *)
Record Request := mkRequest {
  req_url : string;
  req_model : string;
  req_system : string;
  req_user : string
}.

(** the answer: its status and [data.get('message', {}).get('content', '')],
    which raises when the body is not JSON *)
Record Reply := mkReply {
  reply_status : nat;
  reply_content : Res string
}.

Definition is_char (code : nat) (c : ascii) : bool := Text.code c =? code.

(** [re.search(r'\{.*\}', content, re.DOTALL)]: from the first opening
    brace to the last closing brace after it *)
Definition brace_block (content : string) : option string :=
  match Text.drop_while (fun c => negb (is_char 123 c)) content with
  | EmptyString => None
  | String _ rest =>
      match Text.drop_while_end (fun c => negb (is_char 125 c)) rest with
      | EmptyString => None
      | body => Some (String "{"%char body)
      end
  end.

Section Json.

(** parsed JSON values, [json.loads] and the truth value of a parsed value *)
Variable Json : Type.
Variable json_loads : string -> Res Json.
Variable truthy : Json -> bool.

(** [None] of the source is [None] here; a parsed value is returned as it
    is, also when it is falsy *)
Definition _parse_json_response (content : string) : option Json :=
  match json_loads content with
  | Ok value => Some value
  | Raise _ =>
      match brace_block content with
      | Some block =>
          match json_loads block with
          | Ok value => Some value
          | Raise _ => None
          end
      | None => None
      end
  end.

(** what [extract_insights] returns: the parsed answer of the model, or the
    local fallback *)
Inductive Insights :=
  | FromModel (value : Json)
  | Fallback (insight : Insight).

(** [local_url] and [model_name] are [settings.LOCAL_URL] and
    [settings.LOCAL_LLM_MODEL_NAME]; [now] is the clock reading put into the
    prompt and [later] the one taken by the fallback *)
Definition extract_insights (local_url model_name : string)
    (post : Request -> Res Reply) (now later : string)
    (conversation_data : list Message)
  : Insights :=
  let conversation_text := _format_conversation_for_analysis conversation_data in
  let request :=
    mkRequest local_url model_name
      "You are a conversation analyst that returns only valid JSON."
      (prompt_of conversation_text now) in
  match post request with
  | Raise _ => Fallback (_generate_fallback_insights later conversation_data)
  | Ok response =>
      if negb (reply_status response =? 200)
      then Fallback (_generate_fallback_insights later conversation_data)
      else
        match reply_content response with
        | Raise _ => Fallback (_generate_fallback_insights later conversation_data)
        | Ok content =>
            match _parse_json_response content with
            | Some insights =>
                if truthy insights then FromModel insights
                else Fallback (_generate_fallback_insights later conversation_data)
            | None => Fallback (_generate_fallback_insights later conversation_data)
            end
        end
  end.

End Json.

End Summarizer.

(** ** services/link_generator.py *)

Module LinkGenerator.

Import ContentExtractor App.

(** [uuid4 i] is the text of the [i]-th identifier drawn, [str(uuid.uuid4())] *)
Definition generate_links (uuid4 : nat -> string) (count : Z) : list string :=
  map (fun i => ("https://chatgpt.com/share/" ++ uuid4 i)%string)
      (seq 0 (Z.to_nat count)).

Definition validate_link (session : Session) (url : string) : bool :=
  match session url with
  | Ok response => status response =? 200
  | Raise _ => false
  end.

Definition validate_links (session : Session) (urls : list string) : list string :=
  if nonempty urls then List.filter (validate_link session) urls else [].

Definition generate_and_get_links (uuid4 : nat -> string) (count : Z) : list string :=
  generate_links uuid4 count.

Definition generate_and_validate_links (uuid4 : nat -> string) (session : Session)
    (count : Z) (validate : bool) : list string :=
  let links := generate_links uuid4 count in
  if validate then validate_links session links else links.

End LinkGenerator.

(** ** services/ollama_manager.py: addresses and availability checks *)

Module OllamaManager.

Definition is_slash (c : ascii) : bool := Text.code c =? 47.

Definition has_scheme (host : string) : bool :=
  Text.startswith "http://" host || Text.startswith "https://" host.

Definition _normalize_host_url (host : string) : string :=
  let host := if has_scheme host then host else ("http://" ++ host)%string in
  Text.drop_while_end is_slash host.

(** [self.base_url] as [__init__] computes it from [settings.LOCAL_URL] *)
Definition base_url_of (raw_url : string) : string :=
  if Text.contains "/api" raw_url
  then hd EmptyString (Text.split "/api" raw_url)
  else raw_url.

(** an answer to [requests.get]: the status and, for the tag listing, the
    names [model.get('name', '')] of [data.get("models", [])], which raise
    when the body is not JSON *)
Record Answer := mkAnswer {
  status_code : nat;
  model_names : Res (list string)
}.

(** [requests.get]; [TimeoutError] and [ClientError] stand for the
    subclasses of [RequestException], [OtherError] for anything else *)
Definition Requests := string -> Res Answer.

Definition is_request_exception (e : Exn) : bool :=
  match e with
  | TimeoutError | ClientError => true
  | OtherError => false
  end.

(** The result, or the exception that escapes, and the addresses
    requested, in order. *)
Definition is_ollama_running (get : Requests) (base_url : string)
  : Res bool * list string :=
  let normalized_host := _normalize_host_url base_url in
  match get normalized_host with
  | Raise e =>
      (if is_request_exception e then Ok false else Raise e, [normalized_host])
  | Ok response =>
      if status_code response =? 200 then (Ok true, [normalized_host])
      else
        let tags := (normalized_host ++ "/api/tags")%string in
        match get tags with
        | Raise e =>
            (if is_request_exception e then Ok false else Raise e,
             [normalized_host; tags])
        | Ok response => (Ok (status_code response =? 200), [normalized_host; tags])
        end
  end.

(** [name == model_name or name.startswith(f"{model_name}:")] *)
Definition names_model (model_name name : string) : bool :=
  String.eqb name model_name || Text.startswith (model_name ++ ":") name.

(** [response.raise_for_status()] raises for the statuses 400 to 599 *)
Definition is_error_status (code : nat) : bool := (400 <=? code) && (code <? 600).

Definition is_model_available (get : Requests) (base_url model_name : string)
  : Res bool :=
  match fst (is_ollama_running get base_url) with
  | Raise e => Raise e
  | Ok false => Ok false
  | Ok true =>
      let normalized_host := _normalize_host_url base_url in
      match get (normalized_host ++ "/api/tags")%string with
      | Raise e => if is_request_exception e then Ok false else Raise e
      | Ok response =>
          if is_error_status (status_code response) then Ok false
          else
            match model_names response with
            | Raise _ => Ok false
            | Ok names => Ok (existsb (names_model model_name) names)
            end
      end
  end.

End OllamaManager.

(** ** Notions and sample inputs for the further properties *)

Section MoreSamples.

Import ContentExtractor InsightExtractor App.

(** empty, or beginning with a character that [f] rejects *)
Definition starts_clean (f : ascii -> bool) (s : string) : Prop :=
  match s with
  | EmptyString => True
  | String c _ => f c = false
  end.

(** a container with the test-id marker of a user, the class of an
    assistant turn and the wording of an answer *)
Definition user_marked_answer : Element :=
  mkElement
    (fun s => if String.eqb s user_marker then Ok [plain_element EmptyString] else Ok [])
    (fun a => if String.eqb a "class" then Ok (Some "assistant-turn") else Ok None)
    (Ok "Certainly, here is the answer").

(** a container with the avatar of the assistant, the class of a user turn
    and the wording of a question *)
Definition assistant_marked_question : Element :=
  mkElement
    (fun s => if String.eqb s (attr_has "img" "alt" "ChatGPT")
              then Ok [plain_element EmptyString] else Ok [])
    (fun a => if String.eqb a "class" then Ok (Some "user-turn") else Ok None)
    (Ok "please tell me how do i do this").

(** a container whose attributes cannot be read *)
Definition detached_element : Element :=
  mkElement (fun _ => Ok []) (fun _ => Raise OtherError)
            (Ok "please tell me how do i do this").

(** a container whose class names both a human and a bot *)
Definition two_role_classes : Element :=
  mkElement (fun _ => Ok [])
            (fun a => if String.eqb a "class" then Ok (Some "Bot reply to Human") else Ok None)
            (Ok "Certainly, here is the answer").

(** the key under which the structured scan remembers a message *)
Definition content_key (hash : string -> Z) (msg : Message) : Z :=
  hash (Text.take 100 (content msg)).

(** the three selector strategies with the tag each puts on its messages *)
Definition selector_strategies : list ((Page -> Res (list Message)) * string) :=
  [ (_strategy_modern_selectors, "modern_selectors");
    (_strategy_alternative_selectors, "alternative_selectors");
    (_strategy_generic_selectors, "generic_selectors") ].

(** a page whose blocks repeat a text and include a navigation bar *)
Definition repeated_blocks : Page :=
  page_with "div, article, section"
    [ plain_element "  Tell me how the tides work, in a few words.  ";
      plain_element "Tell me how the tides work, in a few words.";
      plain_element "Sign up or log in to continue the chat";
      plain_element "too short" ].

(** a page known only by its text: two paragraphs set apart by blank lines *)
Definition plain_text_page : Page :=
  mkPage (fun _ => Ok [])
         (fun _ => Ok ("please explain to me how the tides of the sea come about"
                       ++ LF ++ LF ++ LF
                       ++ "Certainly, here is a short account of how the tides work"
                       ++ LF ++ LF ++ LF ++ "ok")%string).

(** a transcript whose only message has no known role *)
Definition unknown_only : list Message :=
  [mkMessage unknown "great, thank you, that was helpful" "structured_extraction"].

(** the insight of a transcript without user and assistant messages *)
Definition default_insight (now : string) : Insight :=
  mkInsight None "Not specified" "General conversation" "No problem specified"
            "No solution provided" ["conversation"; "chat"] "neutral" now.


(** a stand-in for [json.loads]: a text is accepted, and stands for itself,
    when it begins with an opening brace and ends with a closing brace *)
Definition braces_only (text : string) : Res string :=
  if Text.startswith "{" text
     && String.eqb (Text.drop_while_end (fun c => negb (Summarizer.is_char 125 c)) text) text
  then Ok text
  else Raise OtherError.

(** an answer of the model with a JSON object inside a sentence *)
Definition chatty_answer : string :=
  ("Sure! Here is the JSON: {" ++ ContentExtractor.DQ ++ "sentiment"
   ++ ContentExtractor.DQ ++ ": " ++ ContentExtractor.DQ ++ "neutral"
   ++ ContentExtractor.DQ ++ "} Hope this helps.")%string.

(** a state with an insight file and its transcript *)
Definition stored_state : State :=
  save_insights "a.json" (Whole (default_insight "2024-01-01T12:00:00"))
    (save_conversation "a.json"
       (Whole (mkTranscript share_url answer_only
                 (mkMetadata 1 0 1 "playwright_multi_strategy")))
       fresh_state).

(** the links the worker counts as generated over a list of rounds *)
Definition links_of (b : Batch) : nat :=
  match b with
  | Gathered results => length results
  | RoundRaised => 0
  end.


(** what precedes the first occurrence of [sep] in [s] *)
Fixpoint before (sep s : string) : string :=
  if Text.startswith sep s then EmptyString
  else match s with
       | EmptyString => EmptyString
       | String c s' => String c (before sep s')
       end.

(** a server that answers every address with status 200 and lists the
    model [llama3:latest] *)
Definition one_model_server : OllamaManager.Requests :=
  fun _ => Ok (OllamaManager.mkAnswer 200 (Ok ["mistral:7b"; "llama3:latest"])).

End MoreSamples.

(** * Properties *)

(** ** Facts about the string primitives *)

Section TextFacts.

Import Text.

Lemma length_take (n : nat) (s : string) : String.length (take n s) <= n.
Proof.
  revert s; induction n as [|n IH]; intros [|c s]; simpl; try lia.
  specialize (IH s); lia.
Qed.

Lemma all_chars_take (f : ascii -> bool) (n : nat) (s : string) :
  all_chars f s = true -> all_chars f (take n s) = true.
Proof.
  revert s; induction n as [|n IH]; intros [|c s]; simpl; auto.
  intros [Hc Hs]%andb_prop. rewrite Hc; simpl; auto.
Qed.

Lemma all_chars_filter_chars (f : ascii -> bool) (s : string) :
  all_chars f (filter_chars f s) = true.
Proof.
  induction s as [|c s IH]; simpl; auto.
  destruct (f c) eqn:Hc; simpl; auto. rewrite Hc; auto.
Qed.

Lemma score_length (ps : list string) (s : string) :
  score ps s = length (List.filter (fun p => contains p s) ps).
Proof.
  unfold score. induction (List.filter _ ps) as [|p l IH]; simpl; auto.
Qed.

Lemma length_filter_le {A} (f : A -> bool) (l : list A) :
  length (List.filter f l) <= length l.
Proof.
  induction l as [|a l IH]; simpl; auto. destruct (f a); simpl; lia.
Qed.

Lemma score_le (ps : list string) (s : string) : score ps s <= length ps.
Proof. rewrite score_length. apply length_filter_le. Qed.

Lemma score_zero (ps : list string) (s : string) :
  any_in ps s = false -> score ps s = 0.
Proof.
  unfold any_in. rewrite score_length. induction ps as [|p ps IH]; simpl; auto.
  intros [Hp Hps]%orb_false_elim. rewrite Hp. auto.
Qed.

Lemma append_cons (c : ascii) (s t : string) :
  (String c s ++ t)%string = String c (s ++ t)%string.
Proof. reflexivity. Qed.

Lemma append_nil (t : string) : (EmptyString ++ t)%string = t.
Proof. reflexivity. Qed.

Lemma startswith_app (p s : string) :
  startswith p s = true -> s = (p ++ drop (String.length p) s)%string.
Proof.
  revert s; induction p as [|a p IH]; intros s H; simpl in *.
  - rewrite append_nil. destruct s; reflexivity.
  - destruct s as [|b s]; [discriminate|].
    apply andb_prop in H as [Hab Hp]. apply Ascii.eqb_eq in Hab as ->.
    rewrite append_cons. cbn [String.length drop]. f_equal. apply IH; exact Hp.
Qed.

Lemma startswith_spec (p s : string) :
  startswith p s = true <-> exists r, s = (p ++ r)%string.
Proof.
  split.
  - intros H. exists (drop (String.length p) s). apply startswith_app; exact H.
  - intros [r ->]. induction p as [|a p IH]; [reflexivity|].
    rewrite append_cons. simpl. rewrite Ascii.eqb_refl. exact IH.
Qed.

Lemma contains_unfold (p s : string) :
  contains p s =
  startswith p s || match s with EmptyString => false | String _ s' => contains p s' end.
Proof. destruct s; reflexivity. Qed.

(** [p in s] holds exactly when [p] occurs in [s] as a substring *)
Lemma contains_spec (p s : string) :
  contains p s = true <-> exists a b, s = (a ++ p ++ b)%string.
Proof.
  split.
  - induction s as [|c s IH]; rewrite contains_unfold; intros H;
      apply orb_prop in H as [H | H]; try discriminate.
    + apply startswith_spec in H as [r Hr]. exists EmptyString, r. exact Hr.
    + apply startswith_spec in H as [r Hr]. exists EmptyString, r. exact Hr.
    + destruct (IH H) as (a & b & ->). exists (String c a), b. reflexivity.
  - intros (a & b & ->). induction a as [|c a IH].
    + rewrite append_nil, contains_unfold.
      assert (H : startswith p (p ++ b) = true) by (apply startswith_spec; eauto).
      rewrite H. reflexivity.
    + rewrite append_cons, contains_unfold, IH. apply orb_true_r.
Qed.

End TextFacts.

(** ** Titles *)

Section Titles.

Import InsightExtractor.

Lemma clean_title_shape (t : string) :
  String.length (clean_title t) <= 50
  /\ Text.all_chars title_char (clean_title t) = true.
Proof.
  unfold clean_title. split.
  - apply length_take.
  - apply all_chars_take, all_chars_filter_chars.
Qed.

(** Whatever the transcript, the title is the time-stamped placeholder or a
    cleaned title: at most 50 characters, each a word character or a hyphen. *)
Lemma generate_title_shape (now : string) (conversation_data : list Message) :
  generate_title now conversation_data = placeholder_title now
  \/ (String.length (generate_title now conversation_data) <= 50
      /\ Text.all_chars title_char (generate_title now conversation_data) = true).
Proof.
  unfold generate_title.
  destruct (first_user_msg conversation_data) as [first|]; auto.
  destruct (Text.is_empty first); auto.
  match goal with |- context [clean_title ?t] => set (raw := t) end.
  destruct (Text.is_empty (clean_title raw)); auto.
  right. apply clean_title_shape.
Qed.

(** On the transcript of scenario A the title is not the
    [sam_my_name_is_sam_how] that C1 expects. *)
Lemma generate_title_scenario_A_differs :
  generate_title "20240101_120000" scenario_A <> "sam_my_name_is_sam_how".
Proof. vm_compute. discriminate. Qed.

(** With the punctuation stripped before the alphanumeric test, the token
    "Sam," would be kept as [sam] and the title would be the one C1
    expects. *)
Lemma strip_first_gives_expected_title :
  summary_strip_first "my name is Sam, how do I reset a password"
  = "my_name_is_sam_how"
  /\ clean_title ("sam" ++ "_" ++
                  summary_strip_first "my name is Sam, how do I reset a password")
     = "sam_my_name_is_sam_how".
Proof. split; reflexivity. Qed.

(** C1: what the code does on the transcript of scenario A.  At any
    instant the title is [sam_my_name_is_how], not the
    [sam_my_name_is_sam_how] of the claim.  The name [sam] comes from the
    pattern "my name is"; the first five blank-separated tokens are my,
    name, is, "Sam," and how; the alphanumeric test is made on the raw
    token, so "Sam," is dropped before its comma could be stripped; the
    rest is lower-cased and joined with underscores.  The title has at
    most 50 characters, all of them word characters or hyphens. *)
Theorem generate_title_scenario_A :
  forall now : string,
    let first := "my name is Sam, how do I reset a password" in
    first_user_msg scenario_A = Some first
    /\ first_name_match name_patterns (Text.lower first) = Some "sam"
    /\ firstn 5 (Text.split_ws first) = ["my"; "name"; "is"; "Sam,"; "how"]
    /\ List.filter Text.isalnum (firstn 5 (Text.split_ws first)) = ["my"; "name"; "is"; "how"]
    /\ summary_of first = "my_name_is_how"
    /\ generate_title now scenario_A = "sam_my_name_is_how"
    /\ String.length (generate_title now scenario_A) <= 50
    /\ Text.all_chars title_char (generate_title now scenario_A) = true.
Proof.
  intros now first.
  assert (Ht : generate_title now scenario_A = "sam_my_name_is_how") by reflexivity.
  rewrite Ht. repeat split; try reflexivity. vm_compute; lia.
Qed.

End Titles.

(** ** The sentiment of the local fallback insight *)

Section Sentiment.

Import InsightExtractor.

(** C2, as stated: with "good" three times and "bad" and "awful" once
    each, counting occurrences gives positive, and the fallback insight
    says negative. *)
Lemma sentiment_not_by_occurrences :
  sentiment_by_occurrences (all_text three_good_two_bad) = "positive"
  /\ sentiment (_generate_fallback_insights "2024-01-01T12:00:00" three_good_two_bad)
     <> "positive".
Proof. split; [reflexivity | vm_compute; discriminate]. Qed.

(** C2, amended: the text is the lower-cased, blank-joined contents of the
    user messages followed by those of the assistant messages; the two
    counts are the numbers of listed words that occur in it at least once
    (so each is at most 6, however often a word is repeated); the larger
    count wins and a tie is neutral.  With "good" three times and "bad" and
    "awful" once each the sentiment is negative. *)
Theorem fallback_sentiment_by_presence :
  forall (now : string) (conversation_data : list Message),
    let text := all_text conversation_data in
    let pos_count := words_present positive_words text in
    let neg_count := words_present negative_words text in
    text = Text.lower
             (Text.join " "
                (contents_with_role user conversation_data ++
                 contents_with_role assistant conversation_data))
    /\ sentiment (_generate_fallback_insights now conversation_data) =
         (if neg_count <? pos_count then "positive"
          else if pos_count <? neg_count then "negative"
          else "neutral")
    /\ pos_count <= 6 /\ neg_count <= 6
    /\ sentiment (_generate_fallback_insights now three_good_two_bad) = "negative".
Proof.
  intros now conversation_data text pos_count neg_count.
  split; [reflexivity|]. split.
  - unfold pos_count, neg_count, words_present. rewrite <- !score_length. reflexivity.
  - unfold pos_count, neg_count, words_present. rewrite <- !score_length.
    split; [apply (score_le positive_words)|].
    split; [apply (score_le negative_words)|reflexivity].
Qed.

End Sentiment.

(** ** The role cascade *)

Section RoleCascade.

Import ContentExtractor.

Lemma any_in_app (ps qs : list string) (s : string) :
  Text.any_in (ps ++ qs) s = Text.any_in ps s || Text.any_in qs s.
Proof. unfold Text.any_in. apply existsb_app. Qed.

Lemma any_selector_found_none (container : Element) (selectors : list string) :
  (forall selector, In selector selectors ->
     query_selector_all container selector = Ok []) ->
  any_selector_found container selectors = Ok false.
Proof.
  induction selectors as [|selector rest IH]; intros H; simpl; auto.
  rewrite (H selector) by (left; reflexivity). simpl.
  apply IH. intros s Hs. apply H. right; exact Hs.
Qed.

Lemma guess_without_phrase (content : string) (position : nat) :
  no_role_phrase content ->
  _guess_role_from_content content position =
  if position mod 2 =? 0 then user else assistant.
Proof.
  unfold no_role_phrase, _guess_role_from_content.
  rewrite any_in_app. intros [Hu Ha]%orb_false_elim.
  rewrite (score_zero _ _ Hu), (score_zero _ _ Ha). reflexivity.
Qed.

(** Without markers and role attributes the cascade ends in the keyword
    guess at position 0, or falls through when the text is empty. *)
Lemma role_cascade_without_markers (container : Element) (content : string) :
  no_avatar_marker container ->
  no_role_attribute container ->
  inner_text container = Ok content ->
  role_cascade container =
  Ok (if Text.is_empty content then None
      else Some (_guess_role_from_content content 0)).
Proof.
  intros Hav (class_attr & testid_attr & Hc & Ht & Hind) Htext.
  unfold role_cascade.
  rewrite (any_selector_found_none container user_avatar_selectors)
    by (intros s Hs; apply Hav, in_or_app; left; exact Hs).
  cbn [bind].
  rewrite (any_selector_found_none container assistant_avatar_selectors)
    by (intros s Hs; apply Hav, in_or_app; right; exact Hs).
  cbn [bind]. rewrite Hc, Ht. cbn [bind].
  rewrite any_in_app in Hind. apply orb_false_elim in Hind as [Hu Ha].
  rewrite Hu, Ha, Htext. cbn [bind]. destruct (Text.is_empty content); reflexivity.
Qed.

(** C3, as stated: a container with no avatar marker, no role attribute and
    the text "hello there, world", which holds no requester or responder
    phrase, is not classified as unknown. *)
Lemma classify_no_signal_not_unknown :
  let container := plain_element "hello there, world" in
  no_avatar_marker container
  /\ no_role_attribute container
  /\ inner_text container = Ok "hello there, world"
  /\ no_role_phrase "hello there, world"
  /\ _determine_role_improved container <> unknown.
Proof.
  simpl. split; [intros s _; reflexivity|].
  split; [exists None, None; repeat split; reflexivity|].
  split; [reflexivity|]. split; [reflexivity|].
  vm_compute. discriminate.
Qed.

(** C3, amended: for a container with no avatar marker, no role-indicating
    class or test-id attribute and a text holding no requester or responder
    phrase, the result is user when the text is not empty (the keyword
    scores tie at zero and the tie is broken at position 0), and unknown
    when the text is empty. *)
Theorem classify_without_signal :
  forall (container : Element) (content : string),
    no_avatar_marker container ->
    no_role_attribute container ->
    inner_text container = Ok content ->
    no_role_phrase content ->
    _determine_role_improved container =
    if Text.is_empty content then unknown else user.
Proof.
  intros container content Hav Hattr Htext Hphrase.
  unfold _determine_role_improved.
  rewrite (role_cascade_without_markers container content Hav Hattr Htext).
  destruct (Text.is_empty content); [reflexivity|].
  rewrite (guess_without_phrase content 0 Hphrase). reflexivity.
Qed.

Lemma classify_without_signal_witness :
  _determine_role_improved (plain_element "hello there, world") = user
  /\ _determine_role_improved (plain_element EmptyString) = unknown.
Proof.
  split.
  - apply (classify_without_signal (plain_element "hello there, world")
             "hello there, world").
    + intros s _; reflexivity.
    + exists None, None; repeat split; reflexivity.
    + reflexivity.
    + reflexivity.
  - apply (classify_without_signal (plain_element EmptyString) EmptyString).
    + intros s _; reflexivity.
    + exists None, None; repeat split; reflexivity.
    + reflexivity.
    + reflexivity.
Defined.

End RoleCascade.

(** ** The strategy chain and the banner filter *)

Section Extraction.

Import ContentExtractor.

Lemma Role_eqb_eq (a b : Role) : Role_eqb a b = true <-> a = b.
Proof. destruct a, b; simpl; split; intros H; try reflexivity; discriminate. Qed.

Lemma has_role_spec (r : Role) (msgs : list Message) :
  has_role r msgs = true <-> exists msg, In msg msgs /\ role msg = r.
Proof.
  unfold has_role. rewrite existsb_exists.
  split; intros (msg & Hin & H); exists msg; split; auto; apply Role_eqb_eq; exact H.
Qed.

Lemma nonempty_spec {A} (l : list A) : nonempty l = true <-> l <> [].
Proof. destruct l; simpl; split; intros H; congruence. Qed.

Lemma structurally_valid_spec (conversation : list Message) :
  nonempty conversation && _validate_conversation_structure conversation = true
  <-> structurally_valid conversation.
Proof.
  unfold _validate_conversation_structure, structurally_valid.
  rewrite <- !has_role_spec, <- nonempty_spec.
  destruct (nonempty conversation); simpl.
  - rewrite andb_true_iff. tauto.
  - split; [discriminate | intros [H _]; discriminate].
Qed.

Lemma first_valid_at (page : Page) (todo : list (Page -> Res (list Message)))
    (n : nat) (strategy : Page -> Res (list Message)) (conversation : list Message) :
  todo !! n = Some strategy ->
  strategy page = Ok conversation ->
  structurally_valid conversation ->
  (forall m earlier c, m < n -> todo !! m = Some earlier ->
     earlier page = Ok c -> ~ structurally_valid c) ->
  first_valid page todo = conversation.
Proof.
  revert n. induction todo as [|s rest IH]; intros n Hn Hrun Hvalid Hearlier.
  - destruct n; discriminate.
  - destruct n as [|n]; simpl in *.
    + injection Hn as ->. rewrite Hrun.
      apply structurally_valid_spec in Hvalid. rewrite Hvalid. reflexivity.
    + assert (Hrest : first_valid page rest = conversation).
      { apply (IH n); auto.
        intros m earlier c Hm Hl. apply (Hearlier (S m) earlier c); [lia | exact Hl]. }
      destruct (s page) as [c|e] eqn:Hs; [|exact Hrest].
      destruct (nonempty c && _validate_conversation_structure c) eqn:Hc; [|exact Hrest].
      exfalso. apply (Hearlier 0 s c); [lia | reflexivity | exact Hs |].
      apply structurally_valid_spec; exact Hc.
Qed.

Lemma first_valid_none (page : Page) (todo : list (Page -> Res (list Message))) :
  (forall strategy c, In strategy todo -> strategy page = Ok c ->
     ~ structurally_valid c) ->
  first_valid page todo = [].
Proof.
  induction todo as [|s rest IH]; intros H; simpl; auto.
  assert (Hrest : first_valid page rest = []).
  { apply IH. intros strategy c Hin. apply H. right; exact Hin. }
  destruct (s page) as [c|e] eqn:Hs; [|exact Hrest].
  destruct (nonempty c && _validate_conversation_structure c) eqn:Hc; [|exact Hrest].
  exfalso. apply (H s c); [left; reflexivity | exact Hs |].
  apply structurally_valid_spec; exact Hc.
Qed.

(** What the chain returns is empty or structurally valid. *)
Lemma first_valid_result (page : Page) (todo : list (Page -> Res (list Message))) :
  first_valid page todo = [] \/ structurally_valid (first_valid page todo).
Proof.
  induction todo as [|s rest IH]; simpl; auto.
  destruct (s page) as [c|e]; auto.
  destruct (nonempty c && _validate_conversation_structure c) eqn:Hc; auto.
  right. apply structurally_valid_spec; exact Hc.
Qed.

(** C5: the five strategies are tried in their fixed order (modern,
    alternative, generic, structured, fallback) and the output of the first
    one that is structurally valid is returned: if the strategy at position
    [n] yields a structurally valid conversation and no strategy before it
    does (each raises or yields an invalid one), the extraction returns the
    output of the strategy at position [n].  For [n = 1] this is: when the
    first strategy yields no valid result and the second yields a valid
    one, the second strategy's output is returned. *)
Theorem extract_returns_first_valid :
  forall (hash : string -> Z) (page : Page) (n : nat)
         (strategy : Page -> Res (list Message)) (conversation : list Message),
    strategies hash !! n = Some strategy ->
    strategy page = Ok conversation ->
    structurally_valid conversation ->
    (forall m earlier c, m < n -> strategies hash !! m = Some earlier ->
       earlier page = Ok c -> ~ structurally_valid c) ->
    strategies hash =
      [_strategy_modern_selectors; _strategy_alternative_selectors;
       _strategy_generic_selectors; _strategy_structured_extraction hash;
       _strategy_fallback]
    /\ _extract_with_multiple_strategies hash page = conversation.
Proof.
  intros hash page n strategy conversation Hn Hrun Hvalid Hearlier.
  split; [reflexivity|].
  exact (first_valid_at page (strategies hash) n strategy conversation
           Hn Hrun Hvalid Hearlier).
Qed.

Lemma extract_returns_first_valid_witness :
  _strategy_modern_selectors alternate_page = Ok []
  /\ _extract_with_multiple_strategies length_hash alternate_page =
     [ mkMessage user "please tell me about proof assistants" "alternative_selectors";
       mkMessage assistant "Certainly, here is an overview" "alternative_selectors" ].
Proof.
  split; [reflexivity|].
  refine (proj2 (extract_returns_first_valid length_hash alternate_page 1
                   _strategy_alternative_selectors _ _ _ _ _)).
  - reflexivity.
  - reflexivity.
  - split; [discriminate|]. split.
    + eexists; split; [left; reflexivity | reflexivity].
    + eexists; split; [right; left; reflexivity | reflexivity].
  - intros m earlier c Hm Hl Hrun.
    assert (m = 0) by lia; subst m. injection Hl as <-.
    injection Hrun as <-. intros [H _]. apply H; reflexivity.
Defined.


(** the shape of every result of [extract_conversation] *)
Lemma extract_conversation_cases (hash : string -> Z) (render : string -> Res Page)
    (url : string) :
  (exists e, render url = Raise e
             /\ extract_conversation hash render url = (None, []))
  \/ (exists page, render url = Ok page
        /\ without_banners (_extract_with_multiple_strategies hash page) = []
        /\ extract_conversation hash render url = (None, [AllErrorBanners]))
  \/ (exists page t warnings, render url = Ok page
        /\ extract_conversation hash render url = (Some t, warnings)
        /\ ContentExtractor.url t = url
        /\ messages t = without_banners (_extract_with_multiple_strategies hash page)
        /\ messages t <> []
        /\ total_messages (metadata t) = length (messages t)
        /\ user_messages (metadata t) = count_role user (messages t)
        /\ assistant_messages (metadata t) = count_role assistant (messages t)).
Proof.
  unfold extract_conversation.
  destruct (render url) as [page|e]; [|left; exists e; auto].
  right. fold (without_banners (_extract_with_multiple_strategies hash page)).
  destruct (without_banners (_extract_with_multiple_strategies hash page))
    as [|msg kept] eqn:Hkept.
  - left. exists page. auto.
  - right. eexists page, _, _. cbn [nonempty negb].
    repeat split; try reflexivity; cbn [messages];
      [symmetry; exact Hkept | discriminate].
Qed.



Lemma list_sum_ones {A} (l : list A) : list_sum (map (fun _ => 1) l) = length l.
Proof. induction l as [|a l IH]; simpl; auto. Qed.

(** C9: every transcript returned by the extraction carries counts that
    agree with the message list stored in it (the list left by the banner
    filter): the total is its length, and the user and assistant counts are
    the numbers of its messages with that role. *)
Theorem metadata_consistent :
  forall (hash : string -> Z) (render : string -> Res Page) (url : string)
         (t : Transcript),
    fst (extract_conversation hash render url) = Some t ->
    total_messages (metadata t) = length (messages t)
    /\ user_messages (metadata t) =
       length (List.filter (fun msg => Role_eqb (role msg) user) (messages t))
    /\ assistant_messages (metadata t) =
       length (List.filter (fun msg => Role_eqb (role msg) assistant) (messages t))
    /\ exists page, render url = Ok page
         /\ messages t = without_banners (_extract_with_multiple_strategies hash page).
Proof.
  intros hash render url t Ht.
  destruct (extract_conversation_cases hash render url)
    as [(e & _ & Hres) | [(page & _ & _ & Hres)
       | (page & t' & ws & Hp & Hres & _ & Hmsgs & _ & Htot & Hu & Ha)]];
    rewrite Hres in Ht; try discriminate.
  simpl in Ht. injection Ht as <-.
  rewrite Htot, Hu, Ha. unfold count_role. rewrite !list_sum_ones.
  repeat split. exists page. auto.
Qed.

Lemma metadata_consistent_witness :
  exists t,
    fst (extract_conversation length_hash (fun _ => Ok alternate_page) share_url) = Some t
    /\ total_messages (metadata t) = length (messages t)
    /\ total_messages (metadata t) = 2.
Proof.
  eexists. split; [reflexivity|].
  split; [|reflexivity].
  exact (proj1 (metadata_consistent length_hash (fun _ => Ok alternate_page)
                  share_url _ eq_refl)).
Defined.

End Extraction.

(** ** The link probe *)

Section Probe.

Import Text App.

Lemma length_snoc (s : string) (c : ascii) :
  String.length (snoc s c) = S (String.length s).
Proof.
  unfold snoc. induction s as [|a s IH]; [reflexivity|].
  rewrite append_cons. simpl. f_equal. exact IH.
Qed.

Lemma split_from_nonempty (sep s : string) (skip : nat) (cur : string) :
  split_from sep s skip cur <> [].
Proof.
  revert skip cur; induction s as [|c s IH]; intros skip cur; simpl; [discriminate|].
  destruct skip; [|apply IH].
  destruct (startswith sep (String c s)); [discriminate | apply IH].
Qed.

Lemma last_cons_nonempty {A} (x d : A) (l : list A) :
  l <> [] -> List.last (x :: l) d = List.last l d.
Proof. destruct l; [congruence | reflexivity]. Qed.

Lemma split_from_slash (c : ascii) (s cur : string) :
  split_from "/" (String c s) 0 cur =
  if Ascii.eqb "/" c then cur :: split_from "/" s 0 EmptyString
  else split_from "/" s 0 (snoc cur c).
Proof.
  cbn [split_from startswith String.length Nat.sub].
  rewrite andb_true_r. reflexivity.
Qed.

(** the last segment of a split at slashes is no longer than what is read *)
Lemma last_split_slash_length (s cur : string) :
  String.length (List.last (split_from "/" s 0 cur) EmptyString)
  <= String.length cur + String.length s.
Proof.
  revert cur; induction s as [|c s IH]; intros cur; [simpl; lia|].
  rewrite split_from_slash. cbn [String.length].
  destruct (Ascii.eqb "/" c).
  - rewrite last_cons_nonempty by apply split_from_nonempty.
    specialize (IH EmptyString). simpl in IH. lia.
  - specialize (IH (snoc cur c)). rewrite length_snoc in IH. lia.
Qed.

(** what precedes a slash does not reach the last segment *)
Lemma last_split_slash_app (p r cur : string) :
  List.last (split_from "/" (p ++ String "/" r) 0 cur) EmptyString
  = List.last (split_from "/" r 0 EmptyString) EmptyString.
Proof.
  revert cur; induction p as [|c p IH]; intros cur;
    [rewrite append_nil | rewrite append_cons]; rewrite split_from_slash.
  - change (Ascii.eqb "/" "/") with true. cbv iota.
    apply last_cons_nonempty, split_from_nonempty.
  - destruct (Ascii.eqb "/" c).
    + rewrite last_cons_nonempty by apply split_from_nonempty. apply IH.
    + apply IH.
Qed.

(** For a URL with the share prefix, the segment after the last slash is
    within what follows the prefix. *)
Lemma uuid_part_within_suffix (url : string) :
  startswith share_prefix url = true ->
  String.length (uuid_part url)
  <= String.length (drop (String.length share_prefix) url).
Proof.
  intros H. apply startswith_app in H.
  set (r := drop (String.length share_prefix) url) in *.
  unfold uuid_part, split. rewrite H.
  change (share_prefix ++ r)%string
    with ("https://chatgpt.com/share" ++ String "/" r)%string.
  rewrite last_split_slash_app.
  pose proof (last_split_slash_length r EmptyString) as Hl. simpl in Hl. exact Hl.
Qed.

(** C7: a locator that fails the format check (it does not start with the
    share prefix, or what follows the prefix, and with it the segment after
    the last slash that the code measures, is shorter than 20 characters)
    is rejected, and no request is made through the session. *)
Theorem malformed_locator_no_request :
  forall (session : Session) (url : string),
    startswith share_prefix url = false
    \/ String.length (drop (String.length share_prefix) url) < 20
    \/ String.length (uuid_part url) < 20 ->
    improved_validate_link session url = (false, []).
Proof.
  intros session url H. unfold improved_validate_link.
  destruct (startswith share_prefix url) eqn:Hp; simpl; [|reflexivity].
  assert (Hlen : String.length (uuid_part url) < 20).
  { destruct H as [H | [H | H]]; [discriminate | | exact H].
    pose proof (uuid_part_within_suffix url Hp). lia. }
  apply Nat.ltb_lt in Hlen. rewrite Hlen. reflexivity.
Qed.

Lemma malformed_locator_no_request_witness :
  improved_validate_link (fun _ => Ok (mkResponse share_url 200 (Ok "chatgpt conversation")))
    "https://chatgpt.com/share/0f8fad5b" = (false, [])
  /\ improved_validate_link (fun _ => Ok (mkResponse share_url 200 (Ok "chatgpt conversation")))
    "https://example.org/share/0f8fad5b-d9cb-469f-a165-70867728950e" = (false, []).
Proof.
  split.
  - apply malformed_locator_no_request. right; left. vm_compute. lia.
  - apply malformed_locator_no_request. left. reflexivity.
Defined.

End Probe.

(** ** The per-link pipeline *)

Section Pipeline.

Import ContentExtractor InsightExtractor App.

Lemma in_called (c : Call) (cs : list Call) (st : State) :
  In c (calls (called cs st)) <-> In c (calls st) \/ In c cs.
Proof. unfold called; simpl. apply in_app_iff. Qed.

Ltac split_calls Hin :=
  rewrite !in_app_iff in Hin; simpl in Hin;
  repeat match goal with
    | H : _ \/ _ |- _ => destruct H
    | H : False |- _ => destruct H
    | H : ExtractInsights _ = ExtractInsights _ |- _ => injection H as <-
    | H : _ = ExtractInsights _ |- _ => discriminate H
    end;
  auto.

(** what steps 3 to 5 do when the directories exist and the transcript is
    written *)
Lemma store_and_summarize_persisted (w : World) (url : string) (t : Transcript)
    (st : State) :
  mkdir_ok w = true ->
  write_outcome w (conversation_path w url t) = Written ->
  let out := store_and_summarize w url t st in
  valid_jsons (files (snd out)) !! filename_of (title_for w (messages t)) url
    = Some (Whole t)
  /\ (forall msgs, In (ExtractInsights msgs) (calls (snd out)) ->
        In (ExtractInsights msgs) (calls st)
        \/ (msgs = messages t /\ 2 <= length msgs))
  /\ (2 <= length (messages t) ->
        In (ExtractInsights (messages t)) (calls (snd out)))
  /\ exists res,
       fst out = Some res
       /\ res_url res = url
       /\ conversation_file res = conversation_path w url t
       /\ message_count res = length (messages t)
       /\ title res = title_for w (messages t)
       /\ (length (messages t) < 2 \/ insights_failed w url t ->
             insights_file res = None
             /\ insights_json (files (snd out)) = insights_json (files st)
             /\ insights_extracted (app_state (snd out))
                = insights_extracted (app_state st))
       /\ (write_outcome w (insights_path w url t) = DumpFailed ->
             insights_file res = None
             /\ insights_extracted (app_state (snd out))
                = insights_extracted (app_state st)).
Proof.
  intros Hdir Hw. unfold conversation_path in *.
  unfold store_and_summarize. rewrite Hdir. cbn [negb]. rewrite Hw.
  unfold insights_failed, insights_path.
  set (filename := filename_of (title_for w (messages t)) url).
  destruct (2 <=? length (messages t)) eqn:Hlen;
    [apply Nat.leb_le in Hlen | apply Nat.leb_gt in Hlen].
  - destruct (extract_insights_of w (messages t)) as [[insights|]|e] eqn:Hins;
      [destruct (write_outcome w ("insights_json/" ++ filename)) eqn:Hwi| |];
      cbn;
      (split; [apply lookup_insert_eq|]);
      (split; [intros msgs Hin; split_calls Hin|]);
      (split; [intros _; rewrite !in_app_iff; simpl; tauto|]);
      eexists; (split; [reflexivity|]); do 4 (split; [reflexivity|]);
      (split;
       [ intros Hf;
         first [ repeat split; reflexivity
               | exfalso; destruct Hf as [Hf | [Hf | [[e Hf] | Hf]]];
                 [lia | congruence | congruence | congruence] ]
       | intros Hf; first [ repeat split; reflexivity | congruence ] ]).
  - cbn.
    split; [apply lookup_insert_eq|].
    split; [intros msgs Hin; split_calls Hin|].
    split; [intros H; lia|].
    eexists; (split; [reflexivity|]); do 4 (split; [reflexivity|]).
    split; intros _; repeat split; reflexivity.
Qed.

(** a run asks for an insight only for a transcript of two messages or more *)
Lemma insights_only_from_two (w : World) (url : string) (st : State)
    (msgs : list Message) :
  In (ExtractInsights msgs) (calls (snd (process_single_link w url st))) ->
  In (ExtractInsights msgs) (calls st) \/ 2 <= length msgs.
Proof.
  unfold process_single_link.
  destruct (improved_validate_link (session w) url) as [is_valid requested].
  assert (Hget : forall l, In (ExtractInsights msgs) (map SessionGet l) -> False).
  { induction l as [|u l IH]; simpl; [tauto | intros [H | H]; [discriminate | auto]]. }
  destruct is_valid; cbn [negb].
  2:{ cbn. rewrite in_app_iff. intros [H | H]; [auto | destruct (Hget _ H)]. }
  destruct (extract_conversation_of w url) as [t|].
  2:{ cbn. rewrite !in_app_iff. simpl.
      intros [[H | H] | [H | []]]; [auto | destruct (Hget _ H) | discriminate]. }
  destruct (length (messages t) <? 1).
  { cbn. rewrite !in_app_iff. simpl.
    intros [[H | H] | [H | []]]; [auto | destruct (Hget _ H) | discriminate]. }
  unfold store_and_summarize.
  destruct (mkdir_ok w); cbn [negb].
  2:{ cbn. rewrite !in_app_iff. simpl.
      intros [[[H | H] | [H | []]] | [H | []]];
        [auto | destruct (Hget _ H) | discriminate | discriminate]. }
  destruct (write_outcome w _);
    [ | cbn; rewrite !in_app_iff; simpl;
        intros [[[[H | H] | [H | []]] | [H | []]] | [H | []]];
        [auto | destruct (Hget _ H) | discriminate | discriminate | discriminate] .. ].
  destruct (2 <=? length (messages t)) eqn:Hlen;
    [apply Nat.leb_le in Hlen | apply Nat.leb_gt in Hlen].
  - destruct (extract_insights_of w (messages t)) as [[insights|]|e];
      [destruct (write_outcome w _)| |]; cbn; rewrite !in_app_iff; simpl;
      intros Hin;
      repeat match goal with
        | H : _ \/ _ |- _ => destruct H
        | H : False |- _ => destruct H
        | H : ExtractInsights _ = ExtractInsights _ |- _ => injection H as <-
        | H : _ = ExtractInsights _ |- _ => discriminate H
        | H : In _ (map SessionGet _) |- _ => destruct (Hget _ H)
        end; auto.
  - cbn. rewrite !in_app_iff. simpl. intros Hin.
    repeat match goal with
      | H : _ \/ _ |- _ => destruct H
      | H : False |- _ => destruct H
      | H : _ = ExtractInsights _ |- _ => discriminate H
      | H : In _ (map SessionGet _) |- _ => destruct (Hget _ H)
      end; auto.
Qed.

(** C8: a run asks for an insight only for a transcript of at least two
    messages.  When the link is accepted, the extractor returns a non-empty
    transcript and the transcript file is written, the run ends with the
    whole transcript stored under its file name and returns a result; with
    fewer than two messages no insight is asked for, and when the insight
    generation raises or returns nothing (or the file for its result cannot
    be opened), the result names no insight file: in these cases the
    insight directory and the insight counter are untouched and the
    transcript is still stored and returned.  When the dump of the insight
    fails after its file was opened, the result names no insight file and
    the counter is untouched as well. *)
Theorem insight_is_best_effort :
  forall (w : World) (url : string) (st : State),
    let out := process_single_link w url st in
    (forall msgs, In (ExtractInsights msgs) (calls (snd out)) ->
       In (ExtractInsights msgs) (calls st) \/ 2 <= length msgs)
    /\ (forall t,
          fst (improved_validate_link (session w) url) = true ->
          extract_conversation_of w url = Some t ->
          messages t <> [] ->
          mkdir_ok w = true ->
          write_outcome w (conversation_path w url t) = Written ->
          valid_jsons (files (snd out)) !! filename_of (title_for w (messages t)) url
            = Some (Whole t)
          /\ (2 <= length (messages t) ->
                In (ExtractInsights (messages t)) (calls (snd out)))
          /\ exists res,
               fst out = Some res
               /\ res_url res = url
               /\ conversation_file res = conversation_path w url t
               /\ message_count res = length (messages t)
               /\ (length (messages t) < 2 \/ insights_failed w url t ->
                     insights_file res = None
                     /\ insights_json (files (snd out)) = insights_json (files st)
                     /\ insights_extracted (app_state (snd out))
                        = insights_extracted (app_state st))
               /\ (write_outcome w (insights_path w url t) = DumpFailed ->
                     insights_file res = None
                     /\ insights_extracted (app_state (snd out))
                        = insights_extracted (app_state st))).
Proof.
  intros w url st out. split.
  - intros msgs. apply insights_only_from_two.
  - intros t Hvalid Hextract Hne Hdir Hw. subst out.
    unfold process_single_link.
    destruct (improved_validate_link (session w) url) as [is_valid requested].
    simpl in Hvalid. subst is_valid. cbn [negb]. rewrite Hextract.
    assert (Hlen : (length (messages t) <? 1) = false).
    { apply Nat.ltb_ge. destruct (messages t); [congruence | simpl; lia]. }
    rewrite Hlen.
    match goal with |- context [store_and_summarize w url t ?s] => set (st1 := s) end.
    destruct (store_and_summarize_persisted w url t st1 Hdir Hw)
      as (Hfile & _ & Hatt & res & Hres & Hurl & Hconv & Hcount & _ & Hfail & Hdump).
    split; [exact Hfile|]. split; [exact Hatt|].
    exists res. repeat (split; [assumption|]). exact Hdump.
Qed.

Lemma insight_is_best_effort_witness :
  (exists res,
     fst (process_single_link (world_of (fun _ => Ok single_turn_page) local_insights)
            share_url fresh_state) = Some res
     /\ message_count res = 1 /\ insights_file res = None)
  /\ (exists res,
     fst (process_single_link
            (world_of (fun _ => Ok alternate_page) (fun _ => Raise TimeoutError))
            share_url fresh_state) = Some res
     /\ message_count res = 2 /\ insights_file res = None).
Proof.
  split.
  - set (w := world_of (fun _ => Ok single_turn_page) local_insights).
    destruct (proj2 (insight_is_best_effort w share_url fresh_state)
                (mkTranscript share_url
                   [mkMessage user "how do I reset my password" "modern_selectors"]
                   (mkMetadata 1 1 0 "playwright_multi_strategy")))
      as (_ & _ & res & Hres & _ & _ & Hcount & Hfail & _);
      [reflexivity | reflexivity | discriminate | reflexivity | reflexivity |].
    exists res. split; [exact Hres|]. split; [exact Hcount|].
    apply Hfail. left. simpl. lia.
  - set (w := world_of (fun _ => Ok alternate_page) (fun _ => Raise TimeoutError)).
    destruct (proj2 (insight_is_best_effort w share_url fresh_state)
                (mkTranscript share_url
                   [ mkMessage user "please tell me about proof assistants"
                       "alternative_selectors";
                     mkMessage assistant "Certainly, here is an overview"
                       "alternative_selectors" ]
                   (mkMetadata 2 1 1 "playwright_multi_strategy")))
      as (_ & _ & res & Hres & _ & _ & Hcount & Hfail & _);
      [reflexivity | reflexivity | discriminate | reflexivity | reflexivity |].
    exists res. split; [exact Hres|]. split; [exact Hcount|].
    apply Hfail. right. right. left. exists TimeoutError. reflexivity.
Defined.

Lemma chain_stops_at_modern (hash : string -> Z) (page : Page)
    (conversation : list Message) :
  _strategy_modern_selectors page = Ok conversation ->
  nonempty conversation && _validate_conversation_structure conversation = true ->
  _extract_with_multiple_strategies hash page = conversation.
Proof.
  intros Hrun Hvalid. unfold _extract_with_multiple_strategies, strategies.
  cbn [first_valid]. rewrite Hrun, Hvalid. reflexivity.
Qed.

(** C10: there are pages on which the first strategy yields a structurally
    valid conversation (one user and one assistant message), the banner
    filter then removes every message of one role, and the extraction
    returns the remaining, non-empty transcript with a warning: one without
    any user message, another without any assistant message.  The pipeline
    does not discard such a transcript: it stores it and returns a result
    whose only message type is assistant. *)
Theorem banner_filter_unbalances_transcript :
  forall hash : string -> Z,
    (structurally_valid (_extract_with_multiple_strategies hash banner_in_question)
     /\ extract_conversation hash (fun _ => Ok banner_in_question) share_url
        = (Some (mkTranscript share_url answer_only
                   (mkMetadata 1 0 1 "playwright_multi_strategy")),
           [NoUserMessages])
     /\ has_role user answer_only = false)
    /\ (structurally_valid (_extract_with_multiple_strategies hash banner_in_answer)
        /\ extract_conversation hash (fun _ => Ok banner_in_answer) share_url
           = (Some (mkTranscript share_url question_only
                      (mkMetadata 1 1 0 "playwright_multi_strategy")),
              [NoAssistantMessages])
        /\ has_role assistant question_only = false)
    /\ (let w := world_of (fun _ => Ok banner_in_question) local_insights in
        let out := process_single_link w share_url fresh_state in
        (exists res, fst out = Some res
                     /\ message_types res = [assistant]
                     /\ message_count res = 1)
        /\ valid_jsons (files (snd out))
             !! "conversation_20240101_120000_0f8fad5b-d9cb-469f-a165-70867728950e.json"
           = Some (Whole (mkTranscript share_url answer_only
                            (mkMetadata 1 0 1 "playwright_multi_strategy")))).
Proof.
  intros hash.
  assert (Hq : _extract_with_multiple_strategies hash banner_in_question =
               [ mkMessage user "my page says not found, what now" "modern_selectors";
                 mkMessage assistant "Here is what you can try next" "modern_selectors" ])
    by (apply chain_stops_at_modern; reflexivity).
  assert (Ha : _extract_with_multiple_strategies hash banner_in_answer =
               [ mkMessage user "what does this message mean" "modern_selectors";
                 mkMessage assistant "It means that something went wrong"
                   "modern_selectors" ])
    by (apply chain_stops_at_modern; reflexivity).
  split; [|split].
  - split; [rewrite Hq; apply structurally_valid_spec; reflexivity|].
    split; [|reflexivity].
    unfold extract_conversation. rewrite Hq. reflexivity.
  - split; [rewrite Ha; apply structurally_valid_spec; reflexivity|].
    split; [|reflexivity].
    unfold extract_conversation. rewrite Ha. reflexivity.
  - split.
    + eexists. split; [vm_compute; reflexivity|]. split; reflexivity.
    + vm_compute. reflexivity.
Qed.

End Pipeline.

(** ** The worker loop *)

Section Worker.

Import ContentExtractor App.

Lemma cooldowns_app (wk : Worker) (n : nat) (g : nat) (more : list nat) :
  cooldowns (mkWorker n g (sleeps wk ++ more))
  = cooldowns wk + count_occ Nat.eq_dec more 30.
Proof. unfold cooldowns; simpl. apply count_occ_app. Qed.

(** one round on the results of a non-empty batch *)
Lemma worker_round_gathered (wk : Worker) (results : list (option PipelineResult)) :
  results <> [] ->
  let wk' := worker_round wk (Gathered results) in
  consecutive_failures wk' =
    (if successful results =? 0 then S (consecutive_failures wk) else 0)
  /\ cooldowns wk' =
       cooldowns wk
       + (if (successful results =? 0) && (3 <=? S (consecutive_failures wk))
          then 1 else 0)
  /\ generated wk' = generated wk + length results.
Proof.
  intros Hne. cbn [worker_round].
  apply nonempty_spec in Hne. rewrite Hne.
  destruct (successful results =? 0); cbn [andb].
  - destruct (3 <=? S (consecutive_failures wk));
      rewrite cooldowns_app; simpl; auto.
  - rewrite cooldowns_app; simpl; auto.
Qed.

(** [n] rounds in a row without a success *)
Lemma failed_rounds (results : list (option PipelineResult)) (n : nat) (wk : Worker) :
  results <> [] ->
  successful results = 0 ->
  let wk' := worker_rounds wk (repeat (Gathered results) n) in
  consecutive_failures wk' = consecutive_failures wk + n
  /\ cooldowns wk' = cooldowns wk + (n - (2 - consecutive_failures wk)).
Proof.
  intros Hne Hzero. revert wk.
  induction n as [|n IH]; intros wk; cbv zeta; unfold worker_rounds;
    cbn [repeat fold_left].
  - split; lia.
  - fold (worker_rounds (worker_round wk (Gathered results))
            (repeat (Gathered results) n)).
    destruct (worker_round_gathered wk results Hne) as (Hc & Hk & _).
    rewrite Hzero in Hc, Hk. cbn [Nat.eqb andb] in Hc, Hk.
    destruct (IH (worker_round wk (Gathered results))) as (Hc' & Hk').
    rewrite Hc', Hk', Hc, Hk.
    split; [lia|].
    destruct (3 <=? S (consecutive_failures wk)) eqn:H3;
      [apply Nat.leb_le in H3 | apply Nat.leb_gt in H3]; lia.
Qed.

(** C4, as stated: in a run of four batches without any success the
    counter passes the threshold once, and the extended wait is taken
    twice. *)
Lemma cooldown_not_once_per_crossing :
  let bs := repeat (all_failed 20) 4 in
  threshold_crossings (worker_start idle_state) bs = 1
  /\ cooldowns (background_worker idle_state bs) = 2.
Proof. split; reflexivity. Qed.

(** C4, amended: at any point of a run, a batch with no success increments
    the counter of consecutive failures and a batch with a success resets
    it to 0; the extended wait is taken after every batch with no success
    that leaves the counter at 3 or more, so that after [n] such batches in
    a row from the start of a run the counter is [n] and the extended wait
    has been taken [n - 2] times. *)
Theorem cooldown_after_every_failed_batch :
  forall (a : AppState) (earlier : list Batch)
         (results : list (option PipelineResult)) (n : nat),
    results <> [] ->
    let wk := background_worker a earlier in
    let wk' := worker_round wk (Gathered results) in
    (successful results = 0 ->
       consecutive_failures wk' = S (consecutive_failures wk)
       /\ cooldowns wk' =
            cooldowns wk + (if 3 <=? S (consecutive_failures wk) then 1 else 0)
       /\ consecutive_failures (background_worker a (repeat (Gathered results) n)) = n
       /\ cooldowns (background_worker a (repeat (Gathered results) n)) = n - 2)
    /\ (successful results <> 0 ->
          consecutive_failures wk' = 0 /\ cooldowns wk' = cooldowns wk).
Proof.
  intros a earlier results n Hne wk wk'.
  destruct (worker_round_gathered wk results Hne) as (Hc & Hk & _).
  fold wk' in Hc, Hk. split.
  - intros Hzero. rewrite Hzero in Hc, Hk. cbn [Nat.eqb andb] in Hc, Hk.
    split; [exact Hc|]. split; [exact Hk|].
    destruct (failed_rounds results n (worker_start a) Hne Hzero) as (Hn & Hcool).
    unfold background_worker. rewrite Hn, Hcool. simpl. split; lia.
  - intros Hpos. apply Nat.eqb_neq in Hpos. rewrite Hpos in Hc, Hk.
    cbn [andb] in Hk. split; [exact Hc | lia].
Qed.

Lemma cooldown_after_every_failed_batch_witness :
  consecutive_failures (background_worker idle_state (repeat (all_failed 20) 5)) = 5
  /\ cooldowns (background_worker idle_state (repeat (all_failed 20) 5)) = 3.
Proof.
  destruct (cooldown_after_every_failed_batch idle_state [] (repeat None 20) 5)
    as [Hfail _]; [discriminate|].
  destruct (Hfail eq_refl) as (_ & _ & Hn & Hcool).
  split; [exact Hn | exact Hcool].
Defined.

End Worker.

(** * Further properties *)

(** ** More facts about the string primitives *)

Section MoreTextFacts.

Import Text.

Lemma drop_while_clean (f : ascii -> bool) (s : string) :
  starts_clean f (drop_while f s).
Proof.
  induction s as [|c s IH]; simpl; auto.
  destruct (f c) eqn:Hc; simpl; auto.
Qed.

Lemma drop_while_id (f : ascii -> bool) (s : string) :
  starts_clean f s -> drop_while f s = s.
Proof. destruct s as [|c s]; simpl; auto. intros ->. reflexivity. Qed.

Lemma drop_while_end_unfold (f : ascii -> bool) (c : ascii) (s : string) :
  drop_while_end f (String c s) =
  match drop_while_end f s with
  | EmptyString => if f c then EmptyString else String c EmptyString
  | r => String c r
  end.
Proof. reflexivity. Qed.

Lemma drop_while_end_clean (f : ascii -> bool) (s : string) :
  starts_clean f s -> starts_clean f (drop_while_end f s).
Proof.
  destruct s as [|c s]; simpl; auto. intros Hc.
  destruct (drop_while_end f s); [rewrite Hc|]; simpl; auto.
Qed.

Lemma drop_while_end_idem (f : ascii -> bool) (s : string) :
  drop_while_end f (drop_while_end f s) = drop_while_end f s.
Proof.
  induction s as [|c s IH]; [reflexivity|].
  rewrite drop_while_end_unfold.
  destruct (drop_while_end f s) as [|d r] eqn:Hr.
  - destruct (f c) eqn:Hc; [reflexivity|].
    rewrite drop_while_end_unfold. simpl. rewrite Hc. reflexivity.
  - rewrite drop_while_end_unfold. rewrite IH. reflexivity.
Qed.

(** [s.strip().strip() == s.strip()] *)
Lemma strip_idem (s : string) : strip (strip s) = strip s.
Proof.
  unfold strip, lstrip, rstrip.
  rewrite (drop_while_id isspace_char (drop_while_end isspace_char _)).
  - apply drop_while_end_idem.
  - apply drop_while_end_clean, drop_while_clean.
Qed.

Lemma length_drop_while_end (f : ascii -> bool) (s : string) :
  String.length (drop_while_end f s) <= String.length s.
Proof.
  induction s as [|c s IH]; [simpl; lia|].
  rewrite drop_while_end_unfold.
  destruct (drop_while_end f s); [destruct (f c)|]; simpl in *; lia.
Qed.


(** a string none of whose characters is removed is stripped to itself *)
Lemma drop_while_end_none (f : ascii -> bool) (s : string) :
  all_chars (fun c => negb (f c)) s = true -> drop_while_end f s = s.
Proof.
  induction s as [|c s IH]; [reflexivity|].
  intros H. cbn [all_chars] in H. apply andb_prop in H as [Hc Hs].
  rewrite drop_while_end_unfold, (IH Hs).
  apply negb_true_iff in Hc. rewrite Hc. destruct s; reflexivity.
Qed.

Lemma filter_chars_all (f : ascii -> bool) (s : string) :
  all_chars f s = true -> filter_chars f s = s.
Proof.
  induction s as [|c s IH]; [reflexivity|].
  simpl. intros [Hc Hs]%andb_prop. rewrite Hc, (IH Hs). reflexivity.
Qed.

Lemma take_all (n : nat) (s : string) :
  String.length s <= n -> take n s = s.
Proof.
  revert n; induction s as [|c s IH]; intros [|n] H; simpl in *; try reflexivity;
    try lia.
  rewrite IH by lia. reflexivity.
Qed.

Lemma all_chars_weaken (f g : ascii -> bool) (s : string) :
  (forall c, f c = true -> g c = true) ->
  all_chars f s = true -> all_chars g s = true.
Proof.
  intros Hfg. induction s as [|c s IH]; [reflexivity|].
  simpl. intros [Hc Hs]%andb_prop. rewrite (Hfg c Hc), (IH Hs). reflexivity.
Qed.


Lemma append_assoc (s t u : string) : ((s ++ t) ++ u = s ++ (t ++ u))%string.
Proof.
  induction s as [|c s IH]; [reflexivity|].
  rewrite !append_cons, IH. reflexivity.
Qed.

Lemma append_empty_r (s : string) : (s ++ EmptyString)%string = s.
Proof.
  induction s as [|c s IH]; [reflexivity|]. rewrite append_cons, IH. reflexivity.
Qed.

Lemma length_append (s t : string) :
  String.length (s ++ t) = String.length s + String.length t.
Proof.
  induction s as [|c s IH]; [reflexivity|].
  rewrite append_cons. simpl. rewrite IH. reflexivity.
Qed.

Lemma take_while_drop_while (f : ascii -> bool) (s : string) :
  (take_while f s ++ drop_while f s)%string = s.
Proof.
  induction s as [|c s IH]; [reflexivity|].
  simpl. destruct (f c); [rewrite append_cons, IH|]; reflexivity.
Qed.

Lemma all_chars_take_while (f : ascii -> bool) (s : string) :
  all_chars f (take_while f s) = true.
Proof.
  induction s as [|c s IH]; [reflexivity|].
  simpl. destruct (f c) eqn:Hc; simpl; rewrite ?Hc; auto.
Qed.

End MoreTextFacts.

(** ** More on the role cascade *)

Section MoreRoleCascade.

Import ContentExtractor.

Lemma any_selector_found_some (container : Element)
    (before after : list string) (selector : string) (matched : list Element) :
  (forall s, In s before -> query_selector_all container s = Ok []) ->
  query_selector_all container selector = Ok matched ->
  matched <> [] ->
  any_selector_found container (before ++ selector :: after) = Ok true.
Proof.
  intros Hbefore Hsel Hne. induction before as [|s before IH]; cbn [app any_selector_found].
  - rewrite Hsel. cbn [bind]. apply nonempty_spec in Hne. rewrite Hne. reflexivity.
  - rewrite (Hbefore s) by (left; reflexivity). cbn [bind nonempty].
    apply IH. intros s' Hs'. apply Hbefore. right; exact Hs'.
Qed.

(** X1: a user avatar marker decides the role.  When one of the user
    avatar selectors matches inside the container, and the selectors tried
    before it match nothing, the role is user, whatever the assistant
    markers, the attributes and the text of the container are. *)
Theorem user_marker_wins :
  forall (container : Element) (before after : list string) (selector : string)
         (matched : list Element),
    user_avatar_selectors = before ++ selector :: after ->
    (forall s, In s before -> query_selector_all container s = Ok []) ->
    query_selector_all container selector = Ok matched ->
    matched <> [] ->
    _determine_role_improved container = user.
Proof.
  intros container before after selector matched Hsplit Hbefore Hsel Hne.
  unfold _determine_role_improved, role_cascade. rewrite Hsplit.
  rewrite (any_selector_found_some container before after selector matched
             Hbefore Hsel Hne).
  reflexivity.
Qed.

Lemma user_marker_wins_witness :
  _determine_role_improved user_marked_answer = user.
Proof.
  apply (user_marker_wins user_marked_answer
           (firstn 5 user_avatar_selectors) [".user-avatar"] user_marker
           [plain_element EmptyString]).
  - reflexivity.
  - intros s Hs. vm_compute in Hs.
    destruct Hs as [<- | [<- | [<- | [<- | [<- | []]]]]]; reflexivity.
  - reflexivity.
  - discriminate.
Defined.

(** X2: without a user avatar marker, an assistant avatar marker decides
    the role: it is assistant, whatever the class and test-id attributes
    and the text of the container say. *)
Theorem assistant_marker_wins :
  forall (container : Element) (before after : list string) (selector : string)
         (matched : list Element),
    (forall s, In s user_avatar_selectors -> query_selector_all container s = Ok []) ->
    assistant_avatar_selectors = before ++ selector :: after ->
    (forall s, In s before -> query_selector_all container s = Ok []) ->
    query_selector_all container selector = Ok matched ->
    matched <> [] ->
    _determine_role_improved container = assistant.
Proof.
  intros container before after selector matched Huser Hsplit Hbefore Hsel Hne.
  unfold _determine_role_improved, role_cascade.
  rewrite (any_selector_found_none container user_avatar_selectors Huser).
  cbn [bind]. rewrite Hsplit.
  rewrite (any_selector_found_some container before after selector matched
             Hbefore Hsel Hne).
  reflexivity.
Qed.

Lemma assistant_marker_wins_witness :
  _determine_role_improved assistant_marked_question = assistant.
Proof.
  apply (assistant_marker_wins assistant_marked_question
           [] (tl assistant_avatar_selectors) (attr_has "img" "alt" "ChatGPT")
           [plain_element EmptyString]).
  - intros s Hs. vm_compute in Hs.
    destruct Hs as [<- | [<- | [<- | [<- | [<- | [<- | [<- | []]]]]]]]; reflexivity.
  - reflexivity.
  - intros s [].
  - reflexivity.
  - discriminate.
Defined.

(** X3: the class and test-id attributes decide the role when no avatar
    marker is found: if their concatenation, lower-cased, holds "user" or
    "human" the role is user, also when it holds an assistant indicator as
    well; otherwise, if it holds "assistant", "ai", "chatgpt" or "bot", the
    role is assistant.  The text of the container is not consulted. *)
Theorem role_from_attributes :
  forall (container : Element) (class_attr testid_attr : option string),
    no_avatar_marker container ->
    get_attribute container "class" = Ok class_attr ->
    get_attribute container "data-testid" = Ok testid_attr ->
    let container_html :=
      Text.lower (default EmptyString class_attr ++ default EmptyString testid_attr) in
    Text.any_in (user_indicators ++ assistant_indicators) container_html = true ->
    _determine_role_improved container =
    if Text.any_in user_indicators container_html then user else assistant.
Proof.
  intros container class_attr testid_attr Hav Hc Ht container_html Hind.
  unfold _determine_role_improved, role_cascade.
  rewrite (any_selector_found_none container user_avatar_selectors)
    by (intros s Hs; apply Hav, in_or_app; left; exact Hs).
  cbn [bind].
  rewrite (any_selector_found_none container assistant_avatar_selectors)
    by (intros s Hs; apply Hav, in_or_app; right; exact Hs).
  cbn [bind]. rewrite Hc, Ht. cbn [bind]. fold container_html.
  rewrite any_in_app in Hind.
  destruct (Text.any_in user_indicators container_html); [reflexivity|].
  cbn [orb] in Hind. rewrite Hind. reflexivity.
Qed.

Lemma role_from_attributes_witness :
  _determine_role_improved two_role_classes = user.
Proof.
  apply (role_from_attributes two_role_classes (Some "Bot reply to Human") None).
  - intros s _. reflexivity.
  - reflexivity.
  - reflexivity.
  - reflexivity.
Defined.

(** X4: a failure while the container is examined gives unknown, not an
    exception and not a guess: when no avatar marker is found and reading
    the class attribute, or then the test-id attribute, raises, the role is
    unknown whatever the text says. *)
Theorem unreadable_attribute_gives_unknown :
  forall (container : Element) (e : Exn),
    no_avatar_marker container ->
    get_attribute container "class" = Raise e
    \/ (exists class_attr, get_attribute container "class" = Ok class_attr
                           /\ get_attribute container "data-testid" = Raise e) ->
    _determine_role_improved container = unknown.
Proof.
  intros container e Hav H.
  unfold _determine_role_improved, role_cascade.
  rewrite (any_selector_found_none container user_avatar_selectors)
    by (intros s Hs; apply Hav, in_or_app; left; exact Hs).
  cbn [bind].
  rewrite (any_selector_found_none container assistant_avatar_selectors)
    by (intros s Hs; apply Hav, in_or_app; right; exact Hs).
  cbn [bind].
  destruct H as [Hc | (class_attr & Hc & Ht)].
  - rewrite Hc. reflexivity.
  - rewrite Hc. cbn [bind]. rewrite Ht. reflexivity.
Qed.

Lemma unreadable_attribute_gives_unknown_witness :
  _determine_role_improved detached_element = unknown.
Proof.
  apply (unreadable_attribute_gives_unknown detached_element OtherError).
  - intros s _. reflexivity.
  - left. reflexivity.
Defined.

(** the keyword guess always names a party, user or assistant, and depends
    on the position only through its parity *)
Lemma guess_names_a_party :
  forall (content : string) (position : nat),
    _guess_role_from_content content position <> unknown
    /\ _guess_role_from_content content position
       = _guess_role_from_content content (position mod 2).
Proof.
  intros content position. unfold _guess_role_from_content.
  rewrite Nat.Div0.mod_mod.
  destruct (_ <? _); [split; [discriminate | reflexivity]|].
  destruct (_ <? _); [split; [discriminate | reflexivity]|].
  destruct (_ =? _); split; try discriminate; reflexivity.
Qed.

End MoreRoleCascade.

(** ** What the strategies put into their messages *)

Section StrategyMessages.

Import ContentExtractor.

Lemma turns_of_spec (method : string) (content_selectors : list string)
    (containers : list Element) (msg : Message) :
  In msg (turns_of method content_selectors containers) ->
  extraction_method msg = method
  /\ Text.strip (content msg) = content msg
  /\ (10 < Text.len (content msg))%N
  /\ exists container,
       In container containers
       /\ role msg = _determine_role_improved container
       /\ content msg = Text.strip (_extract_content container content_selectors).
Proof.
  induction containers as [|container rest IH]; cbn [turns_of]; [intros []|].
  destruct (negb (Text.is_empty (_extract_content container content_selectors))
            && (10 <? Text.len (Text.strip (_extract_content container content_selectors)))%N)
    eqn:Hkeep.
  - intros [<- | Hin].
    + apply andb_prop in Hkeep as [_ Hlen]. apply N.ltb_lt in Hlen.
      cbn. split; [reflexivity|]. split; [apply strip_idem|]. split; [exact Hlen|].
      exists container. split; [left; reflexivity | split; reflexivity].
    + destruct (IH Hin) as (Hm & Hs & Hl & c & Hc & Hrest).
      repeat split; auto. exists c. split; [right; exact Hc | exact Hrest].
  - intros Hin. destruct (IH Hin) as (Hm & Hs & Hl & c & Hc & Hrest).
    repeat split; auto. exists c. split; [right; exact Hc | exact Hrest].
Qed.

(** X5: every message of the three selector strategies carries the tag of
    its strategy and a content that is stripped of surrounding white space
    and longer than 10 characters. *)
Theorem selector_strategy_messages :
  forall (strategy : Page -> Res (list Message)) (method : string) (page : Page)
         (msgs : list Message) (msg : Message),
    In (strategy, method) selector_strategies ->
    strategy page = Ok msgs ->
    In msg msgs ->
    extraction_method msg = method
    /\ Text.strip (content msg) = content msg
    /\ (10 < Text.len (content msg))%N.
Proof.
  intros strategy method page msgs msg Hs Hrun Hin.
  assert (Hturns : exists sels containers, msgs = turns_of method sels containers).
  { destruct Hs as [H | [H | [H | []]]]; injection H as <- <-;
      unfold _strategy_modern_selectors, _strategy_alternative_selectors,
             _strategy_generic_selectors in Hrun;
      match type of Hrun with
      | bind ?r _ = _ => destruct r as [containers|e]; cbn [bind] in Hrun;
                         [injection Hrun as <-; eauto | discriminate]
      end. }
  destruct Hturns as (sels & containers & ->).
  destruct (turns_of_spec method sels containers msg Hin) as (Hm & Hstrip & Hlen & _).
  auto.
Qed.

Lemma selector_strategy_messages_witness :
  (10 < Text.len "Certainly, here is an overview")%N.
Proof.
  apply (selector_strategy_messages _strategy_alternative_selectors
           "alternative_selectors" alternate_page
           [ mkMessage user "please tell me about proof assistants" "alternative_selectors";
             mkMessage assistant "Certainly, here is an overview" "alternative_selectors" ]
           (mkMessage assistant "Certainly, here is an overview" "alternative_selectors")).
  - right; left; reflexivity.
  - reflexivity.
  - right; left; reflexivity.
Defined.

Lemma potential_message_spec (elem : Element) (msg : Message) :
  potential_message elem = Some msg ->
  role msg = _determine_role_improved elem
  /\ extraction_method msg = "structured_extraction"
  /\ Text.strip (content msg) = content msg
  /\ (20 < Text.len (content msg))%N /\ (Text.len (content msg) < 10000)%N
  /\ Text.any_in ui_patterns (Text.lower (content msg)) = false.
Proof.
  unfold potential_message. destruct (inner_text elem) as [text|e]; [|discriminate].
  destruct (negb (Text.is_empty text) && (20 <? Text.len (Text.strip text))%N
            && (Text.len (Text.strip text) <? 10000)%N
            && _looks_like_message (Text.strip text)) eqn:Hkeep; [|discriminate].
  intros H; injection H as <-. cbn.
  apply andb_prop in Hkeep as [Hkeep Hlooks].
  apply andb_prop in Hkeep as [Hkeep Hhi].
  apply andb_prop in Hkeep as [_ Hlo].
  apply N.ltb_lt in Hlo, Hhi.
  split; [reflexivity|]. split; [reflexivity|]. split; [apply strip_idem|].
  split; [exact Hlo|]. split; [exact Hhi|].
  unfold _looks_like_message in Hlooks.
  destruct (_ || _); [discriminate|]. apply negb_true_iff in Hlooks. exact Hlooks.
Qed.

Lemma in_omap {A B} (f : A -> option B) (l : list A) (b : B) :
  In b (omap f l) -> exists a, In a l /\ f a = Some b.
Proof.
  induction l as [|a l IH]; cbn; [intros []|].
  destruct (f a) as [b'|] eqn:Hfa.
  - intros [<- | Hin]; [exists a; auto|].
    destruct (IH Hin) as (a' & Ha' & Hf). exists a'. auto.
  - intros Hin. destruct (IH Hin) as (a' & Ha' & Hf). exists a'. auto.
Qed.

Section Dedupe.

Variable hash : string -> Z.

Lemma dedupe_spec (msgs : list Message) :
  forall seen : gset Z,
    (forall msg, In msg (dedupe hash seen msgs) ->
       In msg msgs /\ content_key hash msg ∉ seen)
    /\ List.NoDup (map (content_key hash) (dedupe hash seen msgs)).
Proof.
  induction msgs as [|m rest IH]; intros seen; cbn [dedupe].
  - split; [intros msg [] | constructor].
  - fold (content_key hash m).
    destruct (decide (content_key hash m ∈ seen)) as [Hseen | Hnew].
    + destruct (IH seen) as [Hin Hnd]. split; [|exact Hnd].
      intros msg Hmsg. destruct (Hin msg Hmsg). split; [right|]; assumption.
    + destruct (IH ({[content_key hash m]} ∪ seen)) as [Hin Hnd]. split.
      * intros msg [<- | Hmsg]; [split; [left; reflexivity | exact Hnew]|].
        destruct (Hin msg Hmsg) as [H1 H2]. split; [right; exact H1|].
        intros Hs. apply H2, elem_of_union. right; exact Hs.
      * cbn [map]. constructor; [|exact Hnd].
        intros Hdup. apply in_map_iff in Hdup as (msg & Hkey & Hmsg).
        destruct (Hin msg Hmsg) as [_ H2]. rewrite Hkey in H2.
        apply H2, elem_of_union. left. apply elem_of_singleton. reflexivity.
Qed.


Lemma in_firstn {A} (n : nat) (l : list A) (a : A) : In a (firstn n l) -> In a l.
Proof.
  revert n; induction l as [|b l IH]; intros [|n]; cbn; try tauto.
  intros [-> | H]; [left; reflexivity | right; exact (IH n H)].
Qed.

Lemma length_firstn_le {A} (n : nat) (l : list A) : length (firstn n l) <= n.
Proof. revert l; induction n as [|n IH]; intros [|a l]; cbn; try lia. specialize (IH l). lia. Qed.


(** X6: the structured scan returns at most 50 messages; each carries the
    tag of the strategy and a stripped content of more than 20 and fewer
    than 10000 characters that holds none of the interface phrases (sign
    up, log in, menu, ...), in any letter case. *)
Theorem structured_strategy_messages :
  forall (page : Page) (msgs : list Message) (msg : Message),
    _strategy_structured_extraction hash page = Ok msgs ->
    In msg msgs ->
    length msgs <= 50
    /\ extraction_method msg = "structured_extraction"
    /\ Text.strip (content msg) = content msg
    /\ (20 < Text.len (content msg))%N /\ (Text.len (content msg) < 10000)%N
    /\ Text.any_in ui_patterns (Text.lower (content msg)) = false.
Proof.
  intros page msgs msg Hrun Hin. unfold _strategy_structured_extraction in Hrun.
  destruct (page_query_selector_all page "div, article, section") as [elems|e];
    cbn [bind] in Hrun; [|discriminate].
  injection Hrun as <-. split; [apply length_firstn_le|].
  apply in_firstn in Hin. apply (proj1 (dedupe_spec _ ∅)) in Hin as [Hin _].
  apply in_omap in Hin as (elem & _ & Helem).
  destruct (potential_message_spec elem msg Helem) as (_ & H). exact H.
Qed.


End Dedupe.

Lemma structured_strategy_messages_witness :
  Text.any_in ui_patterns
     (Text.lower "Tell me how the tides work, in a few words.") = false.
Proof.
  apply (structured_strategy_messages length_hash repeated_blocks
           [mkMessage user "Tell me how the tides work, in a few words."
              "structured_extraction"]
           (mkMessage user "Tell me how the tides work, in a few words."
              "structured_extraction")).
  - vm_compute. reflexivity.
  - left; reflexivity.
Defined.


Lemma classify_segments_spec (segments : list string) :
  forall (i : nat) (msg : Message),
    In msg (classify_segments i segments) ->
    role msg <> unknown
    /\ extraction_method msg = "fallback_pattern"
    /\ Text.strip (content msg) = content msg
    /\ (50 < Text.len (content msg))%N /\ (Text.len (content msg) < 5000)%N.
Proof.
  induction segments as [|segment rest IH]; intros i msg; cbn [classify_segments];
    [intros []|].
  destruct ((50 <? Text.len (Text.strip segment))%N
            && (Text.len (Text.strip segment) <? 5000)%N) eqn:Hkeep.
  - intros [<- | Hin]; [|exact (IH (S i) msg Hin)].
    apply andb_prop in Hkeep as [Hlo Hhi]. apply N.ltb_lt in Hlo, Hhi. cbn.
    split; [apply guess_names_a_party|]. split; [reflexivity|].
    split; [apply strip_idem|]. split; assumption.
  - intros Hin. exact (IH (S i) msg Hin).
Qed.

(** X8: the fallback split returns at most 20 messages; each has the role
    user or assistant, never unknown, carries the tag of the strategy, and
    has a stripped content of more than 50 and fewer than 5000 characters. *)
Theorem fallback_strategy_messages :
  forall (page : Page) (msgs : list Message) (msg : Message),
    _strategy_fallback page = Ok msgs ->
    In msg msgs ->
    length msgs <= 20
    /\ role msg <> unknown
    /\ extraction_method msg = "fallback_pattern"
    /\ Text.strip (content msg) = content msg
    /\ (50 < Text.len (content msg))%N /\ (Text.len (content msg) < 5000)%N.
Proof.
  intros page msgs msg Hrun Hin. unfold _strategy_fallback in Hrun.
  destruct (page_inner_text page "body") as [page_text|e]; cbn [bind] in Hrun;
    [|discriminate].
  injection Hrun as <-. split; [apply length_firstn_le|].
  apply in_firstn in Hin. exact (classify_segments_spec _ 0 msg Hin).
Qed.

Lemma fallback_strategy_messages_witness :
  length [ mkMessage user "please explain to me how the tides of the sea come about"
             "fallback_pattern";
           mkMessage assistant "Certainly, here is a short account of how the tides work"
             "fallback_pattern" ] <= 20.
Proof.
  apply (fallback_strategy_messages plain_text_page _
           (mkMessage user "please explain to me how the tides of the sea come about"
              "fallback_pattern")).
  - vm_compute. reflexivity.
  - left; reflexivity.
Defined.

(** X9: when none of the content selectors gives an element (each matches
    nothing, or its query raises), the content of a container is its own
    text, stripped, and it is empty when reading that text raises. *)
Theorem extract_content_falls_back :
  forall (container : Element) (selectors : list string),
    (forall selector, In selector selectors ->
       query_selector_all container selector = Ok []
       \/ exists e, query_selector_all container selector = Raise e) ->
    _extract_content container selectors =
    match inner_text container with
    | Ok full_text => Text.strip full_text
    | Raise _ => EmptyString
    end.
Proof.
  intros container selectors H.
  induction selectors as [|selector rest IH]; cbn [_extract_content]; [reflexivity|].
  unfold content_by_selector.
  destruct (H selector (or_introl eq_refl)) as [Hq | [e Hq]]; rewrite Hq; cbn [bind nonempty];
    apply IH; intros s Hs; apply H; right; exact Hs.
Qed.

Lemma extract_content_falls_back_witness :
  _extract_content (plain_element "  some text  ") [".prose"; ".markdown"] = "some text".
Proof.
  apply (extract_content_falls_back (plain_element "  some text  ") [".prose"; ".markdown"]).
  intros selector _. left. reflexivity.
Defined.

(** X10: a transcript is returned only when the strategy chain gave a
    structurally valid conversation (at least one user and one assistant
    message before the banner filter), and it is never empty. *)
Theorem transcript_from_valid_chain :
  forall (hash : string -> Z) (render : string -> Res Page) (url : string)
         (t : Transcript),
    fst (extract_conversation hash render url) = Some t ->
    messages t <> []
    /\ exists page,
         render url = Ok page
         /\ structurally_valid (_extract_with_multiple_strategies hash page).
Proof.
  intros hash render url t Ht.
  destruct (extract_conversation_cases hash render url)
    as [(e & _ & Hres) | [(page & _ & _ & Hres)
       | (page & t' & ws & Hp & Hres & _ & Hmsgs & Hne & _)]];
    rewrite Hres in Ht; try discriminate.
  simpl in Ht. injection Ht as <-. split; [exact Hne|].
  exists page. split; [exact Hp|].
  destruct (first_valid_result page (strategies hash)) as [Hempty | Hvalid];
    [|exact Hvalid].
  exfalso. apply Hne. rewrite Hmsgs.
  unfold _extract_with_multiple_strategies. rewrite Hempty. reflexivity.
Qed.

Lemma transcript_from_valid_chain_witness :
  structurally_valid (_extract_with_multiple_strategies length_hash banner_in_question).
Proof.
  destruct (transcript_from_valid_chain length_hash (fun _ => Ok banner_in_question)
              share_url
              (mkTranscript share_url answer_only
                 (mkMetadata 1 0 1 "playwright_multi_strategy")) eq_refl)
    as (_ & page & Hpage & Hvalid).
  injection Hpage as <-. exact Hvalid.
Defined.

End StrategyMessages.

(** ** Titles, names and file names *)

Section TitlesAndNames.

Import Text ContentExtractor InsightExtractor App.

Lemma search_word_after_unfold (lit s : string) :
  search_word_after lit s =
  match (if startswith lit s
         then match take_while is_word_char (drop (String.length lit) s) with
              | EmptyString => None
              | w => Some w
              end
         else None) with
  | Some w => Some w
  | None => match s with
            | EmptyString => None
            | String _ s' => search_word_after lit s'
            end
  end.
Proof. destruct s; reflexivity. Qed.

Lemma search_word_after_spec (lit s w : string) :
  search_word_after lit s = Some w ->
  w <> EmptyString
  /\ all_chars is_word_char w = true
  /\ exists a b, s = (a ++ lit ++ w ++ b)%string.
Proof.
  induction s as [|c s IH]; rewrite search_word_after_unfold.
  - destruct (startswith lit EmptyString) eqn:Hp; [|discriminate].
    destruct lit; [|discriminate]. simpl. discriminate.
  - destruct (startswith lit (String c s)) eqn:Hp.
    + destruct (take_while is_word_char (drop (String.length lit) (String c s)))
        as [|d w'] eqn:Hw.
      * intros H. destruct (IH H) as (Hne & Hall & a & b & ->).
        repeat split; auto. exists (String c a), b. reflexivity.
      * intros H; injection H as <-. split; [discriminate|].
        split; [rewrite <- Hw; apply all_chars_take_while|].
        exists EmptyString, (drop_while is_word_char (drop (String.length lit) (String c s))).
        rewrite append_nil, <- Hw, take_while_drop_while.
        apply startswith_app; exact Hp.
    + intros H. destruct (IH H) as (Hne & Hall & a & b & ->).
      repeat split; auto. exists (String c a), b. reflexivity.
Qed.

Lemma first_name_match_spec (patterns : list string) (s w : string) :
  first_name_match patterns s = Some w ->
  w <> EmptyString
  /\ all_chars is_word_char w = true
  /\ exists lit a b, In lit patterns /\ s = (a ++ lit ++ w ++ b)%string.
Proof.
  induction patterns as [|p rest IH]; cbn [first_name_match]; [discriminate|].
  destruct (search_word_after p s) as [w'|] eqn:Hs.
  - intros H; injection H as <-.
    destruct (search_word_after_spec p s w' Hs) as (Hne & Hall & a & b & Heq).
    repeat split; auto. exists p, a, b. split; [left; reflexivity | exact Heq].
  - intros H. destruct (IH H) as (Hne & Hall & lit & a & b & Hin & Heq).
    repeat split; auto. exists lit, a, b. split; [right; exact Hin | exact Heq].
Qed.

(** X11: a name found by the name patterns is never empty, consists of
    word characters only, and stands in the lower-cased message right after
    one of the four introductions ("my name is ", "i'm ", "i am ",
    "call me "). *)
Theorem extracted_name_shape :
  forall (message w : string),
    first_name_match name_patterns (lower message) = Some w ->
    w <> EmptyString
    /\ all_chars is_word_char w = true
    /\ exists lit, In lit name_patterns
                   /\ contains (lit ++ w) (lower message) = true.
Proof.
  intros message w H.
  destruct (first_name_match_spec name_patterns (lower message) w H)
    as (Hne & Hall & lit & a & b & Hin & Heq).
  repeat split; auto. exists lit. split; [exact Hin|].
  apply contains_spec. exists a, b. rewrite Heq, !append_assoc. reflexivity.
Qed.

Lemma extracted_name_shape_witness :
  all_chars is_word_char "sam" = true.
Proof.
  apply (extracted_name_shape "my name is Sam, how do I reset a password" "sam").
  reflexivity.
Defined.

Lemma first_user_msg_head (conversation_data : list Message) :
  first_user_msg conversation_data =
  head (contents_with_role user conversation_data).
Proof.
  unfold contents_with_role.
  induction conversation_data as [|msg rest IH]; cbn; [reflexivity|].
  destruct (Role_eqb (role msg) user); [reflexivity | exact IH].
Qed.

Lemma filter_chars_app (f : ascii -> bool) (s t : string) :
  filter_chars f (s ++ t) = (filter_chars f s ++ filter_chars f t)%string.
Proof.
  induction s as [|c s IH]; [reflexivity|].
  rewrite append_cons. cbn [filter_chars]. destruct (f c); rewrite IH; reflexivity.
Qed.

Lemma startswith_take_app (n : nat) (w x : string) :
  startswith (take n w) (take n (w ++ x)) = true.
Proof.
  revert n; induction w as [|c w IH]; intros [|n]; try reflexivity.
  rewrite append_cons. cbn [take startswith]. rewrite Ascii.eqb_refl. apply IH.
Qed.

Lemma take_nonempty (n : nat) (c : ascii) (s : string) :
  is_empty (take (S n) (String c s)) = false.
Proof. reflexivity. Qed.

Lemma word_char_is_title_char (c : ascii) :
  is_word_char c = true -> title_char c = true.
Proof. unfold title_char. intros ->. reflexivity. Qed.

(** X12: the title and the fallback insight agree on the name.  When the
    fallback insight of a transcript carries a user name, every title
    generated for the same transcript begins with that name (with its first
    50 characters, if the name is longer). *)
Theorem title_begins_with_name :
  forall (now now' : string) (conversation_data : list Message) (w : string),
    user_name (_generate_fallback_insights now conversation_data) = Some w ->
    startswith (take 50 w) (generate_title now' conversation_data) = true.
Proof.
  intros now now' conversation_data w Hname.
  unfold _generate_fallback_insights in Hname. cbn [user_name] in Hname.
  unfold generate_title. rewrite first_user_msg_head.
  destruct (contents_with_role user conversation_data) as [|first others];
    [discriminate|]. cbn [head].
  destruct (first_name_match_spec _ _ _ Hname) as (Hne & Hall & _).
  destruct first as [|c first]; [vm_compute in Hname; discriminate|].
  cbn [is_empty]. rewrite Hname.
  unfold clean_title. rewrite filter_chars_app.
  rewrite (filter_chars_all _ w)
    by (apply (all_chars_weaken is_word_char); [apply word_char_is_title_char | exact Hall]).
  destruct w as [|d w]; [congruence|].
  rewrite append_cons, take_nonempty, <- append_cons.
  apply startswith_take_app.
Qed.

Lemma title_begins_with_name_witness :
  startswith "sam" (generate_title "20240101_120000" scenario_A) = true.
Proof.
  apply (title_begins_with_name "2024-01-01T12:00:00" "20240101_120000" scenario_A "sam").
  reflexivity.
Defined.

Lemma generate_title_cases :
  forall (now : string) (conversation_data : list Message),
    generate_title now conversation_data <> EmptyString
    /\ (generate_title now conversation_data = placeholder_title now
        \/ (1 <= String.length (generate_title now conversation_data) <= 50
            /\ all_chars title_char (generate_title now conversation_data) = true)).
Proof.
  intros now conversation_data.
  assert (Hne : generate_title now conversation_data <> EmptyString).
  { unfold generate_title.
    destruct (first_user_msg conversation_data) as [first|]; [|discriminate].
    destruct (is_empty first); [discriminate|].
    match goal with |- context [clean_title ?t] => set (raw := t) end.
    destruct (clean_title raw); [discriminate | discriminate]. }
  split; [exact Hne|].
  destruct (generate_title_shape now conversation_data) as [H | [Hlen Hall]]; [left; exact H|].
  right. split; [|exact Hall].
  destruct (generate_title now conversation_data); [congruence | simpl in *; lia].
Qed.

(** X13: a title is never empty: it is the time-stamped placeholder
    [conversation_<time>], or a text of 1 to 50 characters, each a word
    character or a hyphen. *)
Theorem generate_title_never_empty :
  forall (now : string) (conversation_data : list Message),
    generate_title now conversation_data <> EmptyString
    /\ (generate_title now conversation_data = placeholder_title now
        \/ (1 <= String.length (generate_title now conversation_data) <= 50
            /\ all_chars title_char (generate_title now conversation_data) = true)).
Proof. exact generate_title_cases. Qed.

Lemma title_char_is_filename_char (c : ascii) :
  title_char c = true -> filename_char c = true.
Proof.
  destruct c as [[] [] [] [] [] [] [] []]; vm_compute; intros H; congruence.
Qed.

Lemma title_char_is_not_space (c : ascii) :
  title_char c = true -> negb (isspace_char c) = true.
Proof.
  destruct c as [[] [] [] [] [] [] [] []]; vm_compute; intros H; congruence.
Qed.

(** X14: the file name keeps a generated title as it is.  Unless the title
    is the placeholder, the sanitization of the pipeline changes nothing,
    and the file is named [<title>_<last segment of the URL>.json]. *)
Theorem filename_keeps_generated_title :
  forall (now : string) (conversation_data : list Message) (url : string),
    generate_title now conversation_data <> placeholder_title now ->
    filename_of (generate_title now conversation_data) url
    = (generate_title now conversation_data ++ "_" ++ uuid_part url ++ ".json")%string.
Proof.
  intros now conversation_data url Hnot.
  destruct (generate_title_cases now conversation_data)
    as [Hne [H | [[_ Hlen] Hall]]]; [contradiction|].
  set (t := generate_title now conversation_data) in *.
  unfold filename_of.
  rewrite (filter_chars_all filename_char t)
    by (apply (all_chars_weaken title_char); [apply title_char_is_filename_char | exact Hall]).
  unfold rstrip. rewrite (drop_while_end_none isspace_char t)
    by (apply (all_chars_weaken title_char); [apply title_char_is_not_space | exact Hall]).
  destruct t as [|c t]; [congruence|]. cbn [is_empty].
  rewrite take_all by exact Hlen. reflexivity.
Qed.

Lemma filename_keeps_generated_title_witness :
  filename_of (generate_title "20240101_120000" scenario_A) share_url
  = "sam_my_name_is_how_0f8fad5b-d9cb-469f-a165-70867728950e.json".
Proof.
  apply (filename_keeps_generated_title "20240101_120000" scenario_A share_url).
  vm_compute. discriminate.
Defined.





End TitlesAndNames.

(** ** The call to the language model *)

Section SummarizerFacts.

Import Text ContentExtractor InsightExtractor Summarizer.

Lemma filter_none_existsb {A} (f : A -> bool) (l : list A) :
  existsb f l = false -> List.filter f l = [].
Proof.
  induction l as [|a l IH]; cbn; [reflexivity|].
  intros [Ha Hl]%orb_false_elim. rewrite Ha. exact (IH Hl).
Qed.

(** X16: messages of unknown role do not reach the fallback insight.  For
    a transcript without user and assistant messages (an empty one, or one
    with unknown roles only) the fallback insight is the default one: no
    name, "General conversation", "No problem specified", "No solution
    provided", the two fixed tags and a neutral sentiment, whatever the
    messages say. *)
Theorem fallback_without_parties :
  forall (now : string) (conversation_data : list Message),
    has_role user conversation_data = false ->
    has_role assistant conversation_data = false ->
    _generate_fallback_insights now conversation_data = default_insight now.
Proof.
  intros now conversation_data Hu Ha.
  unfold _generate_fallback_insights, all_text, contents_with_role.
  unfold has_role in Hu, Ha.
  rewrite (filter_none_existsb _ _ Hu), (filter_none_existsb _ _ Ha).
  reflexivity.
Qed.

Lemma fallback_without_parties_witness :
  sentiment (_generate_fallback_insights "2024-01-01T12:00:00" unknown_only) = "neutral".
Proof.
  rewrite (fallback_without_parties "2024-01-01T12:00:00" unknown_only);
    reflexivity.
Defined.

Lemma join_contains (sep p : string) (parts : list string) :
  In p parts -> exists a b, join sep parts = (a ++ p ++ b)%string.
Proof.
  induction parts as [|q rest IH]; [intros []|].
  intros [-> | Hin].
  - destruct rest as [|r rest].
    + exists EmptyString, EmptyString. cbn [join]. rewrite append_nil, append_empty_r.
      reflexivity.
    + exists EmptyString, (sep ++ join sep (r :: rest))%string. reflexivity.
  - destruct (IH Hin) as (a & b & Heq).
    destruct rest as [|r rest]; [destruct Hin|].
    exists (q ++ sep ++ a)%string, b.
    change (join sep (q :: r :: rest)) with (q ++ sep ++ join sep (r :: rest))%string.
    rewrite Heq, !append_assoc. reflexivity.
Qed.

(** X17: the text sent for analysis holds every turn of the transcript:
    for each message, its role in capitals, a colon and a blank, and its
    content, unchanged. *)
Theorem formatted_conversation_holds_every_turn :
  forall (conversation_data : list Message) (msg : Message),
    In msg conversation_data ->
    contains (upper (role_name (role msg)) ++ ": " ++ content msg)
             (_format_conversation_for_analysis conversation_data) = true.
Proof.
  intros conversation_data msg Hin.
  apply contains_spec. unfold _format_conversation_for_analysis.
  apply (join_contains _ (format_turn msg)).
  apply in_map. exact Hin.
Qed.

Lemma formatted_conversation_holds_every_turn_witness :
  contains "ASSISTANT: Here is how: ..."
           (_format_conversation_for_analysis scenario_A) = true.
Proof.
  apply (formatted_conversation_holds_every_turn scenario_A
           (mkMessage assistant "Here is how: ..." "modern_selectors")).
  right; left; reflexivity.
Defined.

Lemma drop_while_app_stop (f : ascii -> bool) (pre : string) (c : ascii) (rest : string) :
  all_chars f pre = true -> f c = false ->
  drop_while f (pre ++ String c rest) = String c rest.
Proof.
  intros Hpre Hc. induction pre as [|d pre IH].
  - rewrite append_nil. cbn. rewrite Hc. reflexivity.
  - cbn [all_chars] in Hpre. apply andb_prop in Hpre as [Hd Hpre].
    rewrite append_cons. cbn [drop_while]. rewrite Hd. exact (IH Hpre).
Qed.

Lemma drop_while_end_all (f : ascii -> bool) (s : string) :
  all_chars f s = true -> drop_while_end f s = EmptyString.
Proof.
  induction s as [|c s IH]; [reflexivity|].
  intros H. cbn [all_chars] in H. apply andb_prop in H as [Hc Hs].
  rewrite drop_while_end_unfold, (IH Hs), Hc. reflexivity.
Qed.

Lemma drop_while_end_app_stop (f : ascii -> bool) (body : string) (c : ascii)
    (post : string) :
  all_chars f post = true -> f c = false ->
  drop_while_end f (body ++ String c post) = (body ++ String c EmptyString)%string.
Proof.
  intros Hpost Hc. induction body as [|d body IH].
  - rewrite !append_nil, drop_while_end_unfold, (drop_while_end_all f post Hpost), Hc.
    reflexivity.
  - rewrite !append_cons, drop_while_end_unfold, IH.
    destruct body; reflexivity.
Qed.

(** the block between the first opening and the last closing brace *)
Lemma brace_block_spec (pre mid post : string) :
  all_chars (fun c => negb (is_char 123 c)) pre = true ->
  all_chars (fun c => negb (is_char 125 c)) post = true ->
  brace_block (pre ++ "{" ++ mid ++ "}" ++ post)
  = Some ("{" ++ mid ++ "}")%string.
Proof.
  intros Hpre Hpost. unfold brace_block.
  change ("{" ++ mid ++ "}" ++ post)%string
    with (String "{"%char (mid ++ String "}"%char post)).
  rewrite (drop_while_app_stop _ pre "{"%char _ Hpre eq_refl).
  rewrite (drop_while_end_app_stop _ mid "}"%char post Hpost eq_refl).
  change ("{" ++ mid ++ "}")%string with (String "{"%char (mid ++ String "}"%char EmptyString)).
  destruct mid; reflexivity.
Qed.

Section Parsing.

Variable Json : Type.
Variable json_loads : string -> Res Json.
Variable truthy : Json -> bool.

(** X18: a JSON object wrapped in other text is recovered.  When the
    answer as a whole does not parse, and it holds an object between an
    opening brace with no opening brace before it and a closing brace with
    no closing brace after it, the result is that object parsed; when the
    object does not parse either, there is no result. *)
Theorem parse_json_inside_text :
  forall (pre mid post : string) (e : Exn),
    all_chars (fun c => negb (is_char 123 c)) pre = true ->
    all_chars (fun c => negb (is_char 125 c)) post = true ->
    json_loads (pre ++ "{" ++ mid ++ "}" ++ post) = Raise e ->
    _parse_json_response Json json_loads (pre ++ "{" ++ mid ++ "}" ++ post)
    = match json_loads ("{" ++ mid ++ "}") with
      | Ok value => Some value
      | Raise _ => None
      end.
Proof.
  intros pre mid post e Hpre Hpost Hwhole.
  unfold _parse_json_response.
  rewrite Hwhole, (brace_block_spec pre mid post Hpre Hpost). reflexivity.
Qed.

(** X19: the insight handed back is never absent and never falsy.  It is a
    value of the model only when the request was answered with status 200,
    the content could be read and parsed (as a whole or by its brace
    block), and the parsed value is truthy; in every other case it is
    exactly the local fallback insight, whose sentiment is positive,
    negative or neutral. *)
Theorem extract_insights_result :
  forall (local_url model_name : string) (post : Request -> Res Reply)
         (now later : string) (conversation_data : list Message),
    match extract_insights Json json_loads truthy local_url model_name post now later
            conversation_data with
    | FromModel _ value =>
        truthy value = true
        /\ exists request response content,
             req_url request = local_url
             /\ req_model request = model_name
             /\ contains (_format_conversation_for_analysis conversation_data)
                         (req_user request) = true
             /\ post request = Ok response
             /\ reply_status response = 200
             /\ reply_content response = Ok content
             /\ _parse_json_response Json json_loads content = Some value
    | Fallback _ insight =>
        insight = _generate_fallback_insights later conversation_data
        /\ In (sentiment insight) ["positive"; "negative"; "neutral"]
    end.
Proof.
  intros local_url model_name post now later conversation_data.
  assert (Hfb : _generate_fallback_insights later conversation_data
                = _generate_fallback_insights later conversation_data
                /\ In (sentiment (_generate_fallback_insights later conversation_data))
                      ["positive"; "negative"; "neutral"]).
  { split; [reflexivity|]. cbn [_generate_fallback_insights sentiment].
    unfold sentiment_of.
    destruct (_ <? _); [left; reflexivity|].
    destruct (_ <? _); [right; left; reflexivity | right; right; left; reflexivity]. }
  unfold extract_insights.
  match goal with |- context [post ?r] => set (request := r) end.
  destruct (post request) as [response|e] eqn:Hpost; [|exact Hfb].
  destruct (reply_status response =? 200) eqn:Hstatus; cbn [negb]; [|exact Hfb].
  destruct (reply_content response) as [content|e] eqn:Hcontent; [|exact Hfb].
  destruct (_parse_json_response Json json_loads content) as [value|] eqn:Hparse;
    [|exact Hfb].
  destruct (truthy value) eqn:Htruthy; [|exact Hfb].
  split; [exact Htruthy|].
  exists request, response, content.
  split; [reflexivity|]. split; [reflexivity|].
  split.
  - apply contains_spec. cbn [request req_user]. unfold prompt_of.
    match goal with
    | |- context [join LF ?parts] =>
        destruct (join_contains LF
                    (indent 12 (_format_conversation_for_analysis conversation_data))
                    parts) as (a & b & Heq)
    end.
    { do 4 right. left. reflexivity. }
    rewrite Heq. unfold indent.
    exists (a ++ string_of_list_ascii (repeat " "%char 12))%string, b.
    rewrite !append_assoc. reflexivity.
  - split; [exact Hpost|]. split; [apply Nat.eqb_eq; exact Hstatus|].
    split; [exact Hcontent | exact Hparse].
Qed.

End Parsing.

Lemma parse_json_inside_text_witness :
  _parse_json_response string braces_only chatty_answer
  = Some ("{" ++ DQ ++ "sentiment" ++ DQ ++ ": " ++ DQ ++ "neutral" ++ DQ ++ "}")%string.
Proof.
  apply (parse_json_inside_text string braces_only
           "Sure! Here is the JSON: "
           (DQ ++ "sentiment" ++ DQ ++ ": " ++ DQ ++ "neutral" ++ DQ)%string
           " Hope this helps." OtherError).
  - reflexivity.
  - reflexivity.
  - reflexivity.
Defined.

End SummarizerFacts.

(** ** More on the probe, the pipeline and the worker *)

Section MorePipeline.

Import Text ContentExtractor InsightExtractor App.

(** X20: a link is accepted only on evidence.  When the probe accepts a
    locator, the locator has the share prefix and a last segment of at
    least 20 characters, exactly one request was made, to the locator
    itself, and the answer had a status below 400, a final address without
    "auth.openai.com" and "login", and a readable body that holds none of
    the error phrases and at least two of the five positive markers. *)
Theorem accepted_link_evidence :
  forall (session : Session) (url : string),
    fst (improved_validate_link session url) = true ->
    startswith share_prefix url = true
    /\ 20 <= String.length (uuid_part url)
    /\ snd (improved_validate_link session url) = [url]
    /\ exists response body,
         session url = Ok response
         /\ status response < 400
         /\ contains "auth.openai.com" (final_url response) = false
         /\ contains "login" (lower (final_url response)) = false
         /\ text response = Ok body
         /\ any_in error_indicators (lower body) = false
         /\ 2 <= words_present positive_indicators (lower body).
Proof.
  intros session url. unfold improved_validate_link.
  destruct (startswith share_prefix url); cbn [negb]; [|discriminate].
  destruct (String.length (uuid_part url) <? 20) eqn:Hlen; [discriminate|].
  apply Nat.ltb_ge in Hlen. cbn [fst snd].
  destruct (session url) as [response|e]; [|discriminate].
  unfold judge_response.
  destruct (contains "auth.openai.com" (final_url response)) eqn:Hauth; [discriminate|].
  destruct (contains "login" (lower (final_url response))) eqn:Hlogin; [discriminate|].
  cbn [orb].
  destruct (status response =? 404) eqn:H404; [discriminate|].
  destruct (status response =? 403) eqn:H403; [discriminate|].
  destruct (400 <=? status response) eqn:H400; [discriminate|].
  apply Nat.leb_gt in H400.
  destruct (text response) as [body|e] eqn:Hbody; [|discriminate].
  destruct (any_in error_indicators (lower body)) eqn:Herr; [discriminate|].
  destruct (score positive_indicators (lower body) <? 2) eqn:Hpos; [discriminate|].
  apply Nat.ltb_ge in Hpos. rewrite score_length in Hpos.
  intros _. split; [reflexivity|]. split; [exact Hlen|]. split; [reflexivity|].
  exists response, body. repeat split; auto.
Qed.

Lemma accepted_link_evidence_witness :
  snd (improved_validate_link open_session share_url) = [share_url].
Proof.
  apply (accepted_link_evidence open_session share_url). reflexivity.
Defined.

(** what a run does to the counters and to the files, case by case *)
Lemma process_single_link_cases (w : World) (url : string) (st : State) :
  let out := process_single_link w url st in
  let a := app_state st in
  let a' := app_state (snd out) in
  (* rejected by the probe *)
  (fst (improved_validate_link (session w) url) = false
   /\ fst out = None /\ files (snd out) = files st
   /\ a' = bump_failed a)
  \/ (* accepted, then discarded before any file is opened *)
     (fst (improved_validate_link (session w) url) = true
      /\ fst out = None /\ files (snd out) = files st
      /\ a' = bump_valid a)
  \/ (* accepted, and the dump of the transcript failed after its file was opened *)
     (exists t name,
        fst (improved_validate_link (session w) url) = true
        /\ extract_conversation_of w url = Some t
        /\ name = filename_of (title_for w (messages t)) url
        /\ write_outcome w ("valid_jsons/" ++ name) = DumpFailed
        /\ fst out = None
        /\ files (snd out) = mkFiles (<[name := Partial t]> (valid_jsons (files st)))
                                     (insights_json (files st))
        /\ a' = bump_valid a)
  \/ (* transcript stored, no insight file touched *)
     (exists t name,
        fst (improved_validate_link (session w) url) = true
        /\ extract_conversation_of w url = Some t
        /\ name = filename_of (title_for w (messages t)) url
        /\ fst out = Some (mkPipelineResult url ("valid_jsons/" ++ name) None
                             (length (messages t))
                             (remove_dups (map role (messages t)))
                             (title_for w (messages t)))
        /\ files (snd out) = mkFiles (<[name := Whole t]> (valid_jsons (files st)))
                                     (insights_json (files st))
        /\ a' = bump_valid a)
  \/ (* transcript stored, and the dump of the insight failed after its file
        was opened *)
     (exists t name insight,
        fst (improved_validate_link (session w) url) = true
        /\ extract_conversation_of w url = Some t
        /\ name = filename_of (title_for w (messages t)) url
        /\ extract_insights_of w (messages t) = Ok (Some insight)
        /\ write_outcome w ("insights_json/" ++ name) = DumpFailed
        /\ fst out = Some (mkPipelineResult url ("valid_jsons/" ++ name) None
                             (length (messages t))
                             (remove_dups (map role (messages t)))
                             (title_for w (messages t)))
        /\ files (snd out) = mkFiles (<[name := Whole t]> (valid_jsons (files st)))
                                     (<[name := Partial insight]> (insights_json (files st)))
        /\ a' = bump_valid a)
  \/ (* transcript and insight stored *)
     (exists t name insight,
        fst (improved_validate_link (session w) url) = true
        /\ extract_conversation_of w url = Some t
        /\ 2 <= length (messages t)
        /\ extract_insights_of w (messages t) = Ok (Some insight)
        /\ name = filename_of (title_for w (messages t)) url
        /\ fst out = Some (mkPipelineResult url ("valid_jsons/" ++ name)
                             (Some ("insights_json/" ++ name)%string)
                             (length (messages t))
                             (remove_dups (map role (messages t)))
                             (title_for w (messages t)))
        /\ files (snd out) = mkFiles (<[name := Whole t]> (valid_jsons (files st)))
                                     (<[name := Whole insight]> (insights_json (files st)))
        /\ a' = bump_insights (bump_valid a)).
Proof.
  cbv zeta. unfold process_single_link.
  destruct (improved_validate_link (session w) url) as [is_valid requested].
  cbn [fst]. destruct is_valid; cbn [negb].
  2:{ left. repeat split; reflexivity. }
  right.
  destruct (extract_conversation_of w url) as [t|] eqn:Hextract.
  2:{ left. repeat split; reflexivity. }
  destruct (length (messages t) <? 1).
  { left. repeat split; reflexivity. }
  unfold store_and_summarize.
  destruct (mkdir_ok w); cbn [negb].
  2:{ left. repeat split; reflexivity. }
  destruct (write_outcome w ("valid_jsons/" ++ _)) eqn:Hwrite.
  2:{ left. repeat split; reflexivity. }
  2:{ right. left. eexists t, _. repeat split; try reflexivity; auto. }
  right. right.
  destruct (2 <=? length (messages t)) eqn:Hlen.
  - apply Nat.leb_le in Hlen.
    destruct (extract_insights_of w (messages t)) as [[insight|]|e] eqn:Hins.
    + destruct (write_outcome w ("insights_json/" ++ _)) eqn:Hwi.
      * right. right. eexists t, _, insight. repeat split; try reflexivity; auto.
      * left. eexists t, _. repeat split; reflexivity.
      * right. left. eexists t, _, insight. repeat split; try reflexivity; auto.
    + left. eexists t, _. repeat split; reflexivity.
    + left. eexists t, _. repeat split; reflexivity.
  - left. eexists t, _. repeat split; reflexivity.
Qed.

(** X21: every run counts its link once.  A run adds one to exactly one
    of the counters of failed validations and of valid links, the former if
    and only if the probe rejects the link; it leaves the counter of
    generated links and the running flag alone; and it adds one to the
    counter of insights exactly when its result names an insight file. *)
Theorem run_counts_its_link_once :
  forall (w : World) (url : string) (st : State),
    let out := process_single_link w url st in
    let a := app_state st in
    let a' := app_state (snd out) in
    failed_validations a' + valid_links a' = failed_validations a + valid_links a + 1
    /\ failed_validations a' =
         failed_validations a
         + (if fst (improved_validate_link (session w) url) then 0 else 1)
    /\ links_generated a' = links_generated a
    /\ is_running a' = is_running a
    /\ insights_extracted a' =
         insights_extracted a
         + match fst out with
           | Some res => match insights_file res with Some _ => 1 | None => 0 end
           | None => 0
           end.
Proof.
  intros w url st.
  destruct (process_single_link_cases w url st)
    as [(Hv & Hout & _ & Ha) | [(Hv & Hout & _ & Ha)
       | [(t & name & Hv & _ & _ & _ & Hout & _ & Ha)
       | [(t & name & Hv & _ & _ & Hout & _ & Ha)
       | [(t & name & insight & Hv & _ & _ & _ & _ & Hout & _ & Ha)
         | (t & name & insight & Hv & _ & _ & _ & _ & Hout & _ & Ha)]]]]];
    cbv zeta; rewrite Ha, Hv, Hout; cbn; repeat split; lia.
Qed.

(** X22: what a run returns tells what it stored.  When a run returns
    nothing, the insight directory is as before and the transcript
    directory is as before too, unless the dump of the transcript failed
    after its file was opened, which leaves a partial file under the
    transcript's name.  When it returns a result, the whole transcript of
    the link is stored under the file name of the result; if the result
    names an insight file, the whole insight is stored under the same name;
    if it names none, the insight directory is as before, unless the dump
    of the insight failed after its file was opened, which leaves a partial
    insight file. *)
Theorem run_result_matches_files :
  forall (w : World) (url : string) (st : State),
    let out := process_single_link w url st in
    match fst out with
    | None =>
        insights_json (files (snd out)) = insights_json (files st)
        /\ (valid_jsons (files (snd out)) = valid_jsons (files st)
            \/ exists t name,
                 extract_conversation_of w url = Some t
                 /\ name = filename_of (title_for w (messages t)) url
                 /\ write_outcome w ("valid_jsons/" ++ name) = DumpFailed
                 /\ valid_jsons (files (snd out))
                    = <[name := Partial t]> (valid_jsons (files st)))
    | Some res =>
        exists t name,
          extract_conversation_of w url = Some t
          /\ name = filename_of (title_for w (messages t)) url
          /\ conversation_file res = ("valid_jsons/" ++ name)%string
          /\ write_outcome w ("valid_jsons/" ++ name) = Written
          /\ valid_jsons (files (snd out)) !! name = Some (Whole t)
          /\ message_count res = length (messages t)
          /\ match insights_file res with
             | Some path =>
                 path = ("insights_json/" ++ name)%string
                 /\ exists insight,
                      extract_insights_of w (messages t) = Ok (Some insight)
                      /\ insights_json (files (snd out)) !! name = Some (Whole insight)
             | None =>
                 insights_json (files (snd out)) = insights_json (files st)
                 \/ exists insight,
                      extract_insights_of w (messages t) = Ok (Some insight)
                      /\ write_outcome w ("insights_json/" ++ name) = DumpFailed
                      /\ insights_json (files (snd out))
                         = <[name := Partial insight]> (insights_json (files st))
             end
    end.
Proof.
  intros w url st.
  assert (Hwritten :
            forall res, fst (process_single_link w url st) = Some res ->
            forall t, extract_conversation_of w url = Some t ->
            write_outcome w ("valid_jsons/" ++ filename_of (title_for w (messages t)) url)
            = Written).
  { intros res Hres t Ht. unfold process_single_link in Hres.
    destruct (improved_validate_link (session w) url) as [[|] requested];
      cbn [negb fst] in Hres; [|discriminate].
    rewrite Ht in Hres. destruct (length (messages t) <? 1); [discriminate|].
    unfold store_and_summarize in Hres.
    destruct (mkdir_ok w); cbn [negb fst] in Hres; [|discriminate].
    destruct (write_outcome w _); [reflexivity | discriminate | discriminate]. }
  destruct (process_single_link_cases w url st)
    as [(_ & Hout & Hf & _) | [(_ & Hout & Hf & _)
       | [(t & name & _ & He & Hn & Hw & Hout & Hf & _)
       | [(t & name & _ & He & Hn & Hout & Hf & _)
       | [(t & name & insight & _ & He & Hn & Hi & Hw & Hout & Hf & _)
         | (t & name & insight & _ & He & _ & Hi & Hn & Hout & Hf & _)]]]]];
    cbv zeta; pose proof Hwritten as Hwr; rewrite Hout in Hwr |- *.
  - rewrite Hf. split; [reflexivity | left; reflexivity].
  - rewrite Hf. split; [reflexivity | left; reflexivity].
  - rewrite Hf. cbn. split; [reflexivity|]. right. exists t, name. auto.
  - exists t, name. rewrite Hf. cbn.
    split; [exact He|]. split; [exact Hn|]. split; [reflexivity|].
    split; [rewrite Hn; exact (Hwr _ eq_refl t He)|].
    split; [apply lookup_insert_eq|]. split; [reflexivity | left; reflexivity].
  - exists t, name. rewrite Hf. cbn.
    split; [exact He|]. split; [exact Hn|]. split; [reflexivity|].
    split; [rewrite Hn; exact (Hwr _ eq_refl t He)|].
    split; [apply lookup_insert_eq|]. split; [reflexivity|].
    right. exists insight. auto.
  - exists t, name. rewrite Hf. cbn.
    split; [exact He|]. split; [exact Hn|]. split; [reflexivity|].
    split; [rewrite Hn; exact (Hwr _ eq_refl t He)|].
    split; [apply lookup_insert_eq|]. split; [reflexivity|].
    split; [reflexivity|]. exists insight. split; [exact Hi | apply lookup_insert_eq].
Qed.

(** X23: runs never delete a file, and never leave an insight without its
    transcript: the names in both directories only grow, and if every
    insight file has a transcript file of the same name before a run, this
    holds after it. *)
Theorem insights_have_transcripts :
  forall (w : World) (url : string) (st : State),
    dom (insights_json (files st)) ⊆ dom (valid_jsons (files st)) ->
    let st' := snd (process_single_link w url st) in
    dom (insights_json (files st')) ⊆ dom (valid_jsons (files st'))
    /\ dom (valid_jsons (files st)) ⊆ dom (valid_jsons (files st'))
    /\ dom (insights_json (files st)) ⊆ dom (insights_json (files st')).
Proof.
  intros w url st Hinv.
  destruct (process_single_link_cases w url st)
    as [(_ & _ & Hf & _) | [(_ & _ & Hf & _)
       | [(t & name & _ & _ & _ & _ & _ & Hf & _)
       | [(t & name & _ & _ & _ & _ & Hf & _)
       | [(t & name & insight & _ & _ & _ & _ & _ & _ & Hf & _)
         | (t & name & insight & _ & _ & _ & _ & _ & _ & Hf & _)]]]]];
    cbv zeta; rewrite Hf; cbn [valid_jsons insights_json];
    rewrite ?dom_insert_L; set_solver.
Qed.

Lemma insights_have_transcripts_witness :
  dom (insights_json (files (snd (process_single_link
         (world_of (fun _ => Ok alternate_page) local_insights) share_url stored_state))))
  ⊆ dom (valid_jsons (files (snd (process_single_link
         (world_of (fun _ => Ok alternate_page) local_insights) share_url stored_state)))).
Proof.
  refine (proj1 (insights_have_transcripts
                   (world_of (fun _ => Ok alternate_page) local_insights)
                   share_url stored_state _)).
  unfold stored_state, save_insights, save_conversation. cbn.
  rewrite !dom_insert_L. set_solver.
Defined.

Lemma worker_round_facts (wk : Worker) (b : Batch) :
  let wk' := worker_round wk b in
  generated wk' = generated wk + links_of b
  /\ consecutive_failures wk' <= S (consecutive_failures wk)
  /\ exists waits, sleeps wk' = sleeps wk ++ waits
                   /\ 10 <= list_sum waits
                   /\ (b = RoundRaised -> waits = [10]).
Proof.
  destruct b as [results|]; cbn [worker_round links_of].
  - destruct results as [|r results]; cbn [nonempty].
    + cbn [generated consecutive_failures sleeps length].
      split; [lia|]. split; [lia|]. eexists. split; [reflexivity|].
      cbn. split; [lia | discriminate].
    + destruct (successful (r :: results) =? 0);
        [destruct (3 <=? S (consecutive_failures wk))|];
        cbn [generated consecutive_failures sleeps];
        (split; [lia|]); (split; [lia|]); eexists; (split; [reflexivity|]);
        cbn; (split; [lia | discriminate]).
  - cbn [generated consecutive_failures sleeps].
    split; [lia|]. split; [lia|]. eexists. split; [reflexivity|].
    cbn. split; [lia | reflexivity].
Qed.

(** X24: the worker paces itself and counts what it generates.  After any
    rounds of a run, the generated-links counter has grown by the number of
    links of the gathered batches, the counter of consecutive failures is
    at most the number of rounds, every round has ended with a wait (the
    waits add up to at least 10 seconds per round), and the extended wait
    of 30 seconds was taken at most once per round. *)
Theorem worker_paces_and_counts :
  forall (a : AppState) (bs : list Batch),
    let wk := background_worker a bs in
    generated wk = links_generated a + list_sum (map links_of bs)
    /\ consecutive_failures wk <= length bs
    /\ length bs <= length (sleeps wk)
    /\ 10 * length bs <= list_sum (sleeps wk)
    /\ cooldowns wk <= length bs.
Proof.
  intros a bs. cbv zeta. unfold background_worker, worker_rounds.
  assert (H : forall wk,
             let wk' := fold_left worker_round bs wk in
             generated wk' = generated wk + list_sum (map links_of bs)
             /\ consecutive_failures wk' <= consecutive_failures wk + length bs
             /\ length (sleeps wk) + length bs <= length (sleeps wk')
             /\ list_sum (sleeps wk) + 10 * length bs <= list_sum (sleeps wk')
             /\ cooldowns wk' <= cooldowns wk + length bs).
  { assert (Hcons : forall x l, list_sum (x :: l) = x + list_sum l) by reflexivity.
    induction bs as [|b bs IH]; intros wk; cbn [fold_left map length].
    - cbv zeta. change (list_sum []) with 0. repeat split; lia.
    - rewrite Hcons.
      destruct (IH (worker_round wk b)) as (Hg & Hc & Hl & Hs & Hk).
      destruct (worker_round_facts wk b) as (Hg1 & Hc1 & waits & Hw & Hsum & _).
      assert (Hwl : 1 <= length waits) by (destruct waits; cbn in *; lia).
      assert (Hk1 : cooldowns (worker_round wk b) <= cooldowns wk + 1).
      { destruct b as [results|]; cbn [worker_round].
        - destruct (nonempty results); [|rewrite cooldowns_app; cbn; lia].
          destruct (successful results =? 0); [|rewrite cooldowns_app; cbn; lia].
          destruct (3 <=? _); rewrite cooldowns_app; cbn; lia.
        - rewrite cooldowns_app; cbn; lia. }
      rewrite Hw, length_app, list_sum_app in *.
      cbv zeta. repeat split; lia. }
  destruct (H (worker_start a)) as (Hg & Hc & Hl & Hs & Hk).
  cbn in *. unfold cooldowns in Hk. cbn in Hk. unfold cooldowns. repeat split; lia.
Qed.

End MorePipeline.

(** ** Generated links *)

Section Links.

Import Text ContentExtractor App LinkGenerator.






End Links.

(** ** The address of the model server *)

Section Ollama.

Import Text OllamaManager.



Lemma before_prefix (sep s : string) :
  exists rest, s = (before sep s ++ rest)%string.
Proof.
  induction s as [|c s IH].
  - exists EmptyString. cbn. destruct (startswith sep EmptyString); reflexivity.
  - cbn [before]. destruct (startswith sep (String c s)).
    + exists (String c s). reflexivity.
    + destruct IH as [rest Hrest]. exists rest. rewrite append_cons, <- Hrest. reflexivity.
Qed.

Lemma startswith_app_r (p s r : string) :
  startswith p s = true -> startswith p (s ++ r) = true.
Proof.
  intros H. apply startswith_spec in H as [x ->]. apply startswith_spec.
  exists (x ++ r)%string. apply append_assoc.
Qed.

Lemma before_free (a : ascii) (p s : string) :
  contains (String a p) (before (String a p) s) = false.
Proof.
  induction s as [|c s IH].
  - cbn. reflexivity.
  - cbn [before]. destruct (startswith (String a p) (String c s)) eqn:Hp; [reflexivity|].
    rewrite contains_unfold, IH, orb_false_r.
    destruct (startswith (String a p) (String c (before (String a p) s))) eqn:Hq;
      [|reflexivity].
    destruct (before_prefix (String a p) s) as [rest Hrest].
    apply (startswith_app_r _ _ rest) in Hq.
    rewrite append_cons, <- Hrest in Hq. congruence.
Qed.

Lemma hd_split_from (sep s : string) :
  forall cur : string,
    hd EmptyString (split_from sep s 0 cur) = (cur ++ before sep s)%string.
Proof.
  induction s as [|c s IH]; intros cur.
  - cbn. destruct (startswith sep EmptyString); rewrite append_empty_r; reflexivity.
  - cbn [split_from before]. destruct (startswith sep (String c s)).
    + cbn. rewrite append_empty_r. reflexivity.
    + rewrite IH. unfold snoc. rewrite append_assoc. reflexivity.
Qed.

(** X27: the base address kept by the manager holds no "/api": it is the
    configured address up to its first "/api", and the whole of it when
    there is none. *)
Theorem base_url_without_api :
  forall raw_url : string,
    contains "/api" (base_url_of raw_url) = false
    /\ base_url_of raw_url = before "/api" raw_url
    /\ exists rest, raw_url = (base_url_of raw_url ++ rest)%string.
Proof.
  intros raw_url.
  assert (Hb : base_url_of raw_url = before "/api" raw_url).
  { unfold base_url_of. destruct (contains "/api" raw_url) eqn:Hc.
    - unfold split. rewrite hd_split_from. reflexivity.
    - clear -Hc. induction raw_url as [|c s IH]; [reflexivity|].
      rewrite contains_unfold in Hc. apply orb_false_elim in Hc as [Hp Hs].
      cbn [before]. rewrite Hp, <- (IH Hs). reflexivity. }
  rewrite Hb. split; [apply before_free|]. split; [reflexivity|]. apply before_prefix.
Qed.

(** X28: a model counts as available only if the server lists it.  When
    [is_model_available] answers yes, the server was found running, the
    tag listing was answered without an error status, and one of the
    listed names is the model name itself or the model name followed by a
    colon and a tag. *)
Theorem available_model_is_listed :
  forall (get : Requests) (base_url model_name : string),
    is_model_available get base_url model_name = Ok true ->
    fst (is_ollama_running get base_url) = Ok true
    /\ exists response names name,
         get (_normalize_host_url base_url ++ "/api/tags")%string = Ok response
         /\ is_error_status (status_code response) = false
         /\ model_names response = Ok names
         /\ In name names
         /\ (name = model_name
             \/ exists tag, name = (model_name ++ ":" ++ tag)%string).
Proof.
  intros get base_url model_name. unfold is_model_available.
  destruct (fst (is_ollama_running get base_url)) as [[|]|e]; try discriminate.
  destruct (get (_normalize_host_url base_url ++ "/api/tags")%string)
    as [response|e] eqn:Hget.
  2:{ destruct (is_request_exception e); discriminate. }
  destruct (is_error_status (status_code response)) eqn:Herr; [discriminate|].
  destruct (model_names response) as [names|e] eqn:Hnames; [|discriminate].
  intros H. injection H as H. apply existsb_exists in H as (name & Hin & Hname).
  split; [reflexivity|]. exists response, names, name.
  repeat split; auto.
  unfold names_model in Hname. apply orb_prop in Hname as [Heq | Hpre].
  - left. apply String.eqb_eq. exact Heq.
  - right. apply startswith_spec in Hpre as [tag Htag]. exists tag.
    rewrite Htag, append_assoc. reflexivity.
Qed.

Lemma available_model_is_listed_witness :
  exists name, In name ["mistral:7b"; "llama3:latest"]
               /\ (name = "llama3" \/ exists tag, name = ("llama3" ++ ":" ++ tag)%string).
Proof.
  destruct (available_model_is_listed one_model_server "localhost:11434/" "llama3" eq_refl)
    as (_ & response & names & name & Hget & _ & Hnames & Hin & Hname).
  injection Hget as <-. injection Hnames as <-.
  exists name. split; assumption.
Defined.

End Ollama.
